(** * IconForge: a shallow embedding of the icon generator

    The repository holds two copies of the application script: [script.js]
    ("Updated") and a later copy with typography controls ("Complete with Font
    Controls").  Functions that are textually the same in both copies are
    embedded once; where the copies differ ([validateFile], [generateTextIcon])
    each has its own definition, in [Module Script] and [Module FontControls].

    Conventions of the embedding:
    - integers that the code obtains with [parseInt] (icon sizes, font weight)
      are [Z]; measured quantities (text width, ascent, descent) are exact
      rationals [Q], the rounding of IEEE doubles is not represented;
    - a JavaScript string is a Rocq [string], one character per code unit, so
      only code units up to U+00FF occur;
    - the page (DOM), the application object [this] and the observable effects
      (notifications, downloads, what was drawn) are fields of explicit state
      records that every method takes and returns;
    - browser services whose result the code only consumes ([measureText],
      [Date.now], [fetch], the presence of JSZip) are fields of a [Host]
      record;
    - [await] points are sequential: one method runs to completion before the
      next event is handled. *)

From Stdlib Require Import ZArith QArith Qround Lia List Bool.
From Stdlib Require Import Ascii String DecimalString DecimalPos DecimalZ.
From Stdlib Require HexadecimalString.
From stdpp Require Import base gmap strings list fin_maps.

Import ListNotations.
Local Open Scope Z_scope.
Local Open Scope string_scope.

(** ** JavaScript helpers *)

(** [a ?? b]: the right operand replaces a null or undefined left operand. *)
Definition nullish {A : Type} (a : option A) (b : A) : A :=
  match a with
  | Some v => v
  | None => b
  end.

(** [a || b] on an optional string: a missing or empty string is falsy. *)
Definition or_default (a : option string) (b : string) : string :=
  match a with
  | Some v => if String.eqb v "" then b else v
  | None => b
  end.

(** [Math.round]: the integer nearest to [x], ties towards plus infinity. *)
Definition Math_round (x : Q) : Z := Qfloor (x + (1 # 2)).

(** [`${n}`] for an integer [n]. *)
Definition numToString (n : Z) : string :=
  NilZero.string_of_int (Z.to_int n).

(** ** The text rasterizer's font search *)

(** What [ctx.measureText(text)] returns.  The two bounding-box fields are
    absent on canvases that lack them. *)
Record TextMetrics := {
  width : Q;
  actualBoundingBoxAscent : option Q;
  actualBoundingBoxDescent : option Q
}.

(** The value of [ctx.font].  The code writes the CSS shorthand
    [`${style} ${weight} ${px}px ${family}`]; its four components are kept
    apart. *)
Record Font := {
  font_style : string;
  font_weight : Z;
  font_px : Z;
  font_family : string
}.

(** [ctx.measureText] under a given [ctx.font]. *)
Definition MeasureText := Font -> string -> TextMetrics.

(** [buildCanvasFont(style, weight, sizePx, family)];
    [sizePx] is always an integer here, so [Math.floor] is the identity. *)
Definition buildCanvasFont (style : string) (weight sizePx : Z) (family : string) : Font :=
  {| font_style := style; font_weight := weight;
     font_px := Z.max 12 sizePx; font_family := family |}.

(** The loop variables of [fitTextToCanvas], with [ctx.font] and, as a ghost
    field, the sizes measured so far (oldest first). *)
Record FitState := {
  lo : Z;
  hi : Z;
  best : Z;
  ctx_font : option Font;
  probes : list Z
}.

Section FitTextToCanvas.

Variable measureText : MeasureText.
Variables (text : string) (maxW maxH : Q) (style : string) (weight : Z) (family : string).

(** The font of a probe: [`${style} ${weight} ${mid}px ${family}`]. *)
Definition probeFont (mid : Z) : Font :=
  {| font_style := style; font_weight := weight; font_px := mid; font_family := family |}.

Definition probeWidth (mid : Z) : Q := width (measureText (probeFont mid) text).

Definition probeHeight (mid : Z) : Q :=
  let metrics := measureText (probeFont mid) text in
  let ascent := nullish (actualBoundingBoxAscent metrics) (inject_Z mid * (8 # 10))%Q in
  let descent := nullish (actualBoundingBoxDescent metrics) (inject_Z mid * (2 # 10))%Q in
  (ascent + descent)%Q.

(** The test [width <= maxW && height <= maxH]. *)
Definition fitsAt (mid : Z) : bool :=
  Qle_bool (probeWidth mid) maxW && Qle_bool (probeHeight mid) maxH.

(** One turn of the [for] loop. *)
Definition fitStep (st : FitState) : FitState :=
  let mid := (lo st + hi st) / 2 in
  if fitsAt mid
  then {| lo := mid + 1; hi := hi st; best := mid;
          ctx_font := Some (probeFont mid); probes := probes st ++ [mid] |}
  else {| lo := lo st; hi := mid - 1; best := best st;
          ctx_font := Some (probeFont mid); probes := probes st ++ [mid] |}.

Definition fitInit : FitState :=
  {| lo := 12; hi := 420; best := 12; ctx_font := None; probes := [] |}.

(** [for (let i = 0; i < n; i++) { ... }] *)
Fixpoint fitLoop (n : nat) (st : FitState) : FitState :=
  match n with
  | O => st
  | S n' => fitLoop n' (fitStep st)
  end.

(** The state when the loop of [fitTextToCanvas] exits. *)
Definition fitFinal : FitState := fitLoop 14 fitInit.

Definition fitTextToCanvas : Z := best fitFinal.

End FitTextToCanvas.

(** ** Data model *)

(** An uploaded [File]: the three properties the code reads. *)
Module File.
Record t := {
  name : string;
  type : string;
  size : Z
}.
End File.

(** What the rasterizer paints on the 512x512 master canvas. *)
Inductive DrawOp :=
| FillRect (fillStyle : string) (x y w h : Z)
| FillText (fillStyle : string) (font : Font) (text : string) (x y : Z).

Record Canvas := {
  canvas_width : Z;
  canvas_height : Z;
  canvas_ops : list DrawOp
}.

(** The master image: decoded from an uploaded file, or loaded from the data
    URL of the text canvas. *)
Inductive Image :=
| FileImage (f : File.t)
| CanvasImage (c : Canvas).

(** The payload of one icon: [sourceImage] drawn at [size] x [size] on a fresh
    canvas and encoded with [canvas.toDataURL(mimeType, quality)]. *)
Record DataUrl := {
  du_source : Image;
  du_size : Z;
  du_mimeType : string;
  du_quality : Q
}.

(** One element of [this.generatedIcons]. *)
Module Icon.
Record t := {
  size : Z;
  format : string;
  dataUrl : DataUrl;
  type : string;
  timestamp : Z;
  filename : string
}.
End Icon.

(** The object handed to [storeSettings] and read back by [applySettings];
    a property that is absent is [None]. *)
Module Settings.
Record t := {
  selectedSizes : option (list Z);
  outputFormat : option string;
  timestamp : Z
}.
End Settings.

(** A record of the [icons] object store (written by [storeImageData]). *)
Record StoredIcon := {
  si_filename : string;
  si_type : string;
  si_size : Z;
  si_timestamp : Z;
  si_imageData : Image
}.

(** The IndexedDB database [IconForgeDB]: the [icons] store with its
    auto-incremented keys, and the [settings] store keyed by [key]. *)
Record Database := {
  db_icons : list StoredIcon;
  db_settings : gmap string Settings.t
}.

Inductive NotificationType := success | error | info.

(** A notification element appended to the document body. *)
Record Notification := {
  n_message : string;
  n_type : NotificationType
}.

(** An [input[name="iconSize"]] checkbox; [cb_value] is [parseInt(cb.value)]. *)
Record Checkbox := {
  cb_value : Z;
  cb_checked : bool
}.

(** An [input[name="format"]] radio button. *)
Record Radio := {
  r_value : string;
  r_checked : bool
}.

(** The form controls the code reads and writes.  [fontFamily], [fontStyle]
    and [fontWeight] are [None] when the control is absent from the page;
    [fontWeight] holds the integer that [parseInt(value, 10)] reads. *)
Record Page := {
  iconText : string;
  textColor : string;
  bgColor : string;
  fontFamily : option string;
  fontStyle : option string;
  fontWeight : option Z;
  iconSize : list Checkbox;
  formatRadios : list Radio
}.

(** The per-icon entry of the archive manifest. *)
Record ManifestIcon := {
  mi_filename : string;
  mi_size : string;
  mi_format : string;
  mi_type : string
}.

(** The object serialized into the archive's [manifest.json]. *)
Record ArchiveManifest := {
  am_name : string;
  am_generated : string;
  total_icons : Z;
  am_format : string;
  am_sizes : list Z;
  am_icons : list ManifestIcon
}.

(** What [zip.file(name, data)] stores: the blob fetched from an icon's data
    URL, or the JSON text of the manifest (kept as the object it prints). *)
Inductive ZipEntry :=
| ZipBlob (blob : DataUrl)
| ZipJson (manifest : ArchiveManifest).

(** An entry of the [icons] array of the web-app manifest. *)
Record PwaIcon := {
  src : string;
  sizes : string;
  pwa_type : string;
  purpose : string
}.

Record PwaManifest := {
  pwa_name : string;
  short_name : string;
  description : string;
  start_url : string;
  display : string;
  orientation : string;
  background_color : string;
  theme_color : string;
  icons : list PwaIcon
}.

(** A file offered to the user through a clicked download link. *)
Inductive Download :=
| DownloadZip (download : string) (files : gmap string ZipEntry)
| DownloadManifest (download : string) (manifest : PwaManifest).

(** The application object together with the page and the effects a user
    can observe. *)
Record App := {
  page : Page;
  currentImage : option Image;
  generatedIcons : list Icon.t;
  db : option Database;
  notifications : list Notification;
  downloads : list Download
}.

(** Browser services. *)
Record Host := {
  measureText : MeasureText;
  (** [Date.now()], by the number of readings already made in the method *)
  dateNow : nat -> Z;
  (** [new Date().toISOString()] *)
  toISOString : string;
  (** whether [createImageFromFile] resolves for a file *)
  decodes : File.t -> bool;
  (** whether [fetch(dataUrl)] and [response.blob()] succeed *)
  fetches : DataUrl -> bool;
  (** whether [typeof JSZip !== 'undefined'] *)
  JSZip : bool
}.

(** ** Strings *)

(** The white space of [String.prototype.trim] among the characters a Rocq
    [string] can hold (code units up to U+00FF): TAB, LF, VT, FF, CR, SP and
    NBSP. *)
Definition isWhiteSpace (c : ascii) : bool :=
  existsb (Nat.eqb (nat_of_ascii c)) [9; 10; 11; 12; 13; 32; 160]%nat.

Fixpoint trimStart (s : string) : string :=
  match s with
  | EmptyString => EmptyString
  | String c rest => if isWhiteSpace c then trimStart rest else s
  end.

Fixpoint trimEnd (s : string) : string :=
  match s with
  | EmptyString => EmptyString
  | String c rest =>
      match trimEnd rest with
      | EmptyString => if isWhiteSpace c then EmptyString else String c EmptyString
      | rest' => String c rest'
      end
  end.

(** [s.trim()] *)
Definition trim (s : string) : string := trimEnd (trimStart s).

(** [s.replace(/[:-]/g, '')] *)
Fixpoint removeColonsAndDashes (s : string) : string :=
  match s with
  | EmptyString => EmptyString
  | String c rest =>
      if Ascii.eqb c ":" || Ascii.eqb c "-"
      then removeColonsAndDashes rest
      else String c (removeColonsAndDashes rest)
  end.

(** ** Notifications *)

Definition set_notifications (app : App) (l : list Notification) : App :=
  {| page := page app; currentImage := currentImage app;
     generatedIcons := generatedIcons app; db := db app;
     notifications := l; downloads := downloads app |}.

Definition set_generatedIcons (app : App) (l : list Icon.t) : App :=
  {| page := page app; currentImage := currentImage app;
     generatedIcons := l; db := db app;
     notifications := notifications app; downloads := downloads app |}.

Definition set_currentImage (app : App) (image : Image) : App :=
  {| page := page app; currentImage := Some image;
     generatedIcons := generatedIcons app; db := db app;
     notifications := notifications app; downloads := downloads app |}.

Definition set_db (app : App) (d : Database) : App :=
  {| page := page app; currentImage := currentImage app;
     generatedIcons := generatedIcons app; db := Some d;
     notifications := notifications app; downloads := downloads app |}.

Definition set_page (app : App) (p : Page) : App :=
  {| page := p; currentImage := currentImage app;
     generatedIcons := generatedIcons app; db := db app;
     notifications := notifications app; downloads := downloads app |}.

Definition add_download (app : App) (d : Download) : App :=
  {| page := page app; currentImage := currentImage app;
     generatedIcons := generatedIcons app; db := db app;
     notifications := notifications app; downloads := downloads app ++ [d] |}.

(** [showNotification(message, type)]: the element is appended to the body. *)
Definition showNotification (app : App) (message : string) (type : NotificationType) : App :=
  set_notifications app (notifications app ++ [{| n_message := message; n_type := type |}]).

Definition showSuccess (app : App) (message : string) : App := showNotification app message success.
Definition showError (app : App) (message : string) : App := showNotification app message error.
Definition showFeedback (app : App) (message : string) : App := showNotification app message info.

(** ** Reading the form *)

(** [getSelectedSizes()]: the checked size boxes in document order. *)
Definition getSelectedSizes (p : Page) : list Z :=
  map cb_value (List.filter cb_checked (iconSize p)).

(** [getSelectedFormat()]: the first checked format radio, else ['png']. *)
Definition getSelectedFormat (p : Page) : string :=
  match find r_checked (formatRadios p) with
  | Some radio => r_value radio
  | None => "png"
  end.

(** ** The multi-size emitter *)

(** The [switch (format)] that picks MIME type and quality. *)
Definition mimeTypeAndQuality (format : string) : string * Q :=
  if String.eqb format "jpeg" then ("image/jpeg", 9 # 10)
  else if String.eqb format "webp" then ("image/webp", 9 # 10)
  else ("image/png", 1 # 1).

(** [`icon-${size}x${size}.${format}`] *)
Definition iconFilename (size : Z) (format : string) : string :=
  "icon-" ++ numToString size ++ "x" ++ numToString size ++ "." ++ format.

(** The object pushed in turn [i] of the loop of [generateIcons]. *)
Definition makeIcon (host : Host) (sourceImage : Image) (type format : string)
    (i : nat) (size : Z) : Icon.t :=
  let '(mimeType, quality) := mimeTypeAndQuality format in
  {| Icon.size := size;
     Icon.format := format;
     Icon.dataUrl := {| du_source := sourceImage; du_size := size;
                        du_mimeType := mimeType; du_quality := quality |};
     Icon.type := type;
     Icon.timestamp := dateNow host i;
     Icon.filename := iconFilename size format |}.

(** The loop of [generateIcons] from turn [i] on: [sizes] is what is left of
    [selectedSizes], [icons] the current content of [this.generatedIcons]. *)
Fixpoint generateIconsFrom (host : Host) (sourceImage : Image) (type format : string)
    (i : nat) (sizes : list Z) (icons : list Icon.t) : list Icon.t :=
  match sizes with
  | [] => icons
  | size :: rest =>
      generateIconsFrom host sourceImage type format (S i) rest
        (icons ++ [makeIcon host sourceImage type format i size])
  end.

(** [generateIcons(sourceImage, type)] *)
Definition generateIcons (host : Host) (app : App) (sourceImage : Image) (type : string) : App :=
  let selectedSizes := getSelectedSizes (page app) in
  let format := getSelectedFormat (page app) in
  let app := set_generatedIcons app [] in
  set_generatedIcons app
    (generateIconsFrom host sourceImage type format 0 selectedSizes (generatedIcons app)).

(** ** The packager *)

(** The loop of [downloadAllIcons] that fetches each icon's data URL and adds
    the blob to the archive under the icon's file name.  A failed fetch throws;
    [None] stands for the exception. *)
Fixpoint zipIcons (host : Host) (icons : list Icon.t) (zip : gmap string ZipEntry)
    : option (gmap string ZipEntry) :=
  match icons with
  | [] => Some zip
  | icon :: rest =>
      if fetches host (Icon.dataUrl icon)
      then zipIcons host rest (<[Icon.filename icon := ZipBlob (Icon.dataUrl icon)]> zip)
      else None
  end.

(** The [manifest] object of [downloadAllIcons]. *)
Definition archiveManifest (host : Host) (app : App) : ArchiveManifest :=
  {| am_name := "IconForge Generated Icons";
     am_generated := toISOString host;
     total_icons := Z.of_nat (length (generatedIcons app));
     am_format := getSelectedFormat (page app);
     am_sizes := getSelectedSizes (page app);
     am_icons := map (fun icon =>
                   {| mi_filename := Icon.filename icon;
                      mi_size := numToString (Icon.size icon) ++ "x" ++ numToString (Icon.size icon);
                      mi_format := Icon.format icon;
                      mi_type := Icon.type icon |})
                 (generatedIcons app) |}.

(** [`iconforge-icons-${timestamp}.zip`] *)
Definition zipDownloadName (host : Host) : string :=
  "iconforge-icons-" ++ removeColonsAndDashes (substring 0 16 (toISOString host)) ++ ".zip".

(** [downloadAllIcons()].  Of the steps inside its [try] only the fetches can
    fail here; [zip.generateAsync] is taken to succeed.  The closing
    notification, which the code defers by half a second, is shown at once. *)
Definition downloadAllIcons (host : Host) (app : App) : App :=
  if (Z.of_nat (length (generatedIcons app)) =? 0)%Z then
    showError app "No icons to download"
  else if negb (JSZip host) then
    showError app "JSZip library not loaded. Please refresh the page."
  else
    match zipIcons host (generatedIcons app) ∅ with
    | Some zip =>
        let manifest := archiveManifest host app in
        let zip := <["manifest.json" := ZipJson manifest]> zip in
        let app := add_download app (DownloadZip (zipDownloadName host) zip) in
        showSuccess app
          ("ZIP file with " ++ numToString (Z.of_nat (length (generatedIcons app)))
             ++ " icons downloaded successfully!")
    | None =>
        showError app "Failed to create ZIP file. Please try downloading individual icons."
    end.

(** The arrow function mapped over the filtered icons in
    [generatePWAManifest]. *)
Definition pwaIcon (icon : Icon.t) : PwaIcon :=
  {| src := Icon.filename icon;
     sizes := numToString (Icon.size icon) ++ "x" ++ numToString (Icon.size icon);
     pwa_type := "image/" ++ Icon.format icon;
     purpose := if (192 <=? Icon.size icon)%Z then "maskable any" else "any" |}.

(** The [manifest] object of [generatePWAManifest]. *)
Definition pwaManifest (app : App) : PwaManifest :=
  {| pwa_name := "Your PWA Application";
     short_name := "PWA App";
     description := "Generated by IconForge - Professional Icon Generator";
     start_url := "/";
     display := "standalone";
     orientation := "portrait-primary";
     background_color := "#ffffff";
     theme_color := "#4F46E5";
     icons := map pwaIcon
                (List.filter (fun icon => (72 <=? Icon.size icon)%Z) (generatedIcons app)) |}.

(** [generatePWAManifest()] *)
Definition generatePWAManifest (app : App) : App :=
  if (Z.of_nat (length (generatedIcons app)) =? 0)%Z then
    showError app "Generate icons first"
  else
    let app := add_download app (DownloadManifest "manifest.json" (pwaManifest app)) in
    showSuccess app "PWA manifest.json generated and downloaded!".

(** ** The persistence shim *)

Definition set_iconSize (p : Page) (boxes : list Checkbox) : Page :=
  {| iconText := iconText p; textColor := textColor p; bgColor := bgColor p;
     fontFamily := fontFamily p; fontStyle := fontStyle p; fontWeight := fontWeight p;
     iconSize := boxes; formatRadios := formatRadios p |}.

Definition set_formatRadios (p : Page) (radios : list Radio) : Page :=
  {| iconText := iconText p; textColor := textColor p; bgColor := bgColor p;
     fontFamily := fontFamily p; fontStyle := fontStyle p; fontWeight := fontWeight p;
     iconSize := iconSize p; formatRadios := radios |}.

Definition uncheck (radio : Radio) : Radio :=
  {| r_value := r_value radio; r_checked := false |}.

(** [formatRadio.checked = true] on the first radio whose value is [value]
    ([querySelector] returns the first match in document order); checking a
    radio unchecks the others of its group.  [None] when no radio matches. *)
Fixpoint checkRadio (value : string) (radios : list Radio) : option (list Radio) :=
  match radios with
  | [] => None
  | radio :: rest =>
      if String.eqb (r_value radio) value
      then Some ({| r_value := r_value radio; r_checked := true |} :: map uncheck rest)
      else option_map (cons (uncheck radio)) (checkRadio value rest)
  end.

(** [applySettings(settings)] *)
Definition applySettings (p : Page) (settings : Settings.t) : Page :=
  let p :=
    match Settings.selectedSizes settings with
    | Some selectedSizes =>
        if (0 <? Z.of_nat (length selectedSizes))%Z
        then set_iconSize p
               (map (fun cb => {| cb_value := cb_value cb;
                                  cb_checked := existsb (Z.eqb (cb_value cb)) selectedSizes |})
                    (iconSize p))
        else p
    | None => p
    end in
  match Settings.outputFormat settings with
  | Some outputFormat =>
      if String.eqb outputFormat "" then p
      else match checkRadio outputFormat (formatRadios p) with
           | Some radios => set_formatRadios p radios
           | None => p
           end
  | None => p
  end.

(** [storeSettings(settings)]: [store.put({ key: 'userSettings', ...settings })];
    nothing happens without a database. *)
Definition storeSettings (app : App) (settings : Settings.t) : App :=
  match db app with
  | None => app
  | Some d =>
      set_db app {| db_icons := db_icons d;
                    db_settings := <["userSettings" := settings]> (db_settings d) |}
  end.

(** [loadPersistedData()]: [store.get('userSettings')], applied when present. *)
Definition loadPersistedData (app : App) : App :=
  match db app with
  | None => app
  | Some d =>
      match db_settings d !! "userSettings" with
      | Some settings => set_page app (applySettings (page app) settings)
      | None => app
      end
  end.

(** [updateSettings()] *)
Definition updateSettings (host : Host) (app : App) : App :=
  let settings :=
    {| Settings.selectedSizes := Some (getSelectedSizes (page app));
       Settings.outputFormat := Some (getSelectedFormat (page app));
       Settings.timestamp := dateNow host 0 |} in
  showFeedback (storeSettings app settings) "Settings saved".

(** [storeImageData(file, image)]; the stored preview is the image itself,
    its truncation to 1000 characters is not represented. *)
Definition storeImageData (host : Host) (app : App) (file : File.t) (image : Image) : App :=
  match db app with
  | None => app
  | Some d =>
      set_db app {| db_icons := db_icons d ++
                      [{| si_filename := File.name file; si_type := File.type file;
                          si_size := File.size file;
                          si_timestamp := dateNow host (length (generatedIcons app));
                          si_imageData := image |}];
                    db_settings := db_settings d |}
  end.

(** ** Input acquisition and the rasterizer: [script.js] *)

Module Script.

Definition validTypes : list string :=
  ["image/jpeg"; "image/jpg"; "image/png"; "image/bmp"].

Definition maxSize : Z := 10 * 1024 * 1024.

(** [validateFile(file)]: the verdict, and the application with the error
    notification of a rejection. *)
Definition validateFile (app : App) (file : File.t) : bool * App :=
  if negb (existsb (String.eqb (File.type file)) validTypes) then
    (false, showError app "Please select a valid image file (JPEG, PNG, BMP)")
  else if (maxSize <? File.size file)%Z then
    (false, showError app "File size must be less than 10MB")
  else
    (true, app).

(** [processFile(file)] *)
Definition processFile (host : Host) (app : App) (file : File.t) : App :=
  let '(valid, app) := validateFile app file in
  if negb valid then app
  else if decodes host file then
    let image := FileImage file in
    let app := set_currentImage app image in
    let app := generateIcons host app image "upload" in
    let app := storeImageData host app file image in
    showSuccess app "Icons generated successfully!"
  else
    showError app "Failed to process image. Please try a different file.".

(** [ctx.font = 'bold 300px Inter, Arial, sans-serif'] *)
Definition textFont : Font :=
  {| font_style := "normal"; font_weight := 700; font_px := 300;
     font_family := "Inter, Arial, sans-serif" |}.

(** The canvas painted by [generateTextIcon]. *)
Definition textCanvas (text textColor bgColor : string) : Canvas :=
  {| canvas_width := 512; canvas_height := 512;
     canvas_ops := [FillRect bgColor 0 0 512 512;
                    FillText textColor textFont text 256 256] |}.

(** [generateTextIcon()]; the [onload] handler of the new image is run as
    the continuation. *)
Definition generateTextIcon (host : Host) (app : App) : App :=
  let text := trim (iconText (page app)) in
  let textColor := textColor (page app) in
  let bgColor := bgColor (page app) in
  if String.eqb text "" then
    showError app "Please enter text for the icon"
  else if (3 <? Z.of_nat (String.length text))%Z then
    showError app "Text must be 3 characters or less"
  else
    let image := CanvasImage (textCanvas text textColor bgColor) in
    let app := set_currentImage app image in
    let app := generateIcons host app image "text" in
    showSuccess app "Text icon generated successfully!".

End Script.

(** ** Input acquisition and the rasterizer: the copy with font controls *)

Module FontControls.

Definition validTypes : list string :=
  ["image/jpeg"; "image/jpg"; "image/png"; "image/bmp"].

Definition maxSize : Z := 50 * 1024 * 1024.

(** [validateFile(file)] *)
Definition validateFile (app : App) (file : File.t) : bool * App :=
  if negb (existsb (String.eqb (File.type file)) validTypes) then
    (false, showError app "Please select a valid image file (JPEG, PNG, BMP)")
  else if (maxSize <? File.size file)%Z then
    (false, showError app "File size must be less than 10MB")
  else
    (true, app).

(** [processFile(file)] *)
Definition processFile (host : Host) (app : App) (file : File.t) : App :=
  let '(valid, app) := validateFile app file in
  if negb valid then app
  else if decodes host file then
    let image := FileImage file in
    let app := set_currentImage app image in
    let app := generateIcons host app image "upload" in
    let app := storeImageData host app file image in
    showSuccess app "Icons generated successfully!"
  else
    showError app "Failed to process image. Please try a different file.".

(** [Math.min(900, Math.max(100, Math.round(fontWeight / 100) * 100))] *)
Definition normalizeWeight (fontWeight : Z) : Z :=
  Z.min 900 (Z.max 100 (Math_round (inject_Z fontWeight / inject_Z 100) * 100)).

(** The weight [generateTextIcon] works with:
    [parseInt(document.getElementById('fontWeight')?.value || '700', 10)],
    normalized. *)
Definition textWeight (p : Page) : Z :=
  normalizeWeight (nullish (fontWeight p) 700).

Definition baseSize : Z := 512.
Definition padding : Z := 48.

(** [fittedPx]: the size found for the text of the page. *)
Definition fittedPx (host : Host) (p : Page) : Z :=
  fitTextToCanvas (measureText host) (trim (iconText p))
    (inject_Z (baseSize - 2 * padding)) (inject_Z (baseSize - 2 * padding))
    (or_default (fontStyle p) "normal") (textWeight p)
    (or_default (fontFamily p) "Inter, Arial, sans-serif").



(** The canvas painted by [generateTextIcon]. *)
Definition textCanvas (host : Host) (p : Page) : Canvas :=
  let text := trim (iconText p) in
  let fontFamily := or_default (fontFamily p) "Inter, Arial, sans-serif" in
  let fontStyle := or_default (fontStyle p) "normal" in
  let fontWeight := textWeight p in
  {| canvas_width := baseSize; canvas_height := baseSize;
     canvas_ops :=
       [FillRect (bgColor p) 0 0 baseSize baseSize;
        FillText (textColor p)
          (buildCanvasFont fontStyle fontWeight (fittedPx host p) fontFamily)
          text (baseSize / 2) (baseSize / 2)] |}.

(** [generateTextIcon()]; the [onload] handler of the new image is run as
    the continuation. *)
Definition generateTextIcon (host : Host) (app : App) : App :=
  let text := trim (iconText (page app)) in
  if String.eqb text "" then
    showError app "Please enter text for the icon"
  else if (3 <? Z.of_nat (String.length text))%Z then
    showError app "Text must be 3 characters or less"
  else
    let image := CanvasImage (textCanvas host (page app)) in
    let app := set_currentImage app image in
    let app := generateIcons host app image "text" in
    showSuccess app "Text icon generated successfully!".

End FontControls.

(** ** Predicates used in the statements *)

(** What holds of the loop variables of [fitTextToCanvas] before every turn,
    for a fit test [fits]: the bounds stay within reach of [12..420], they
    cross by at most two, and [best] is either the untouched initial value or
    the largest measured size that fit. *)
Definition fitInv (fits : Z -> bool) (st : FitState) : Prop :=
  12 <= lo st <= 421 /\
  hi st <= 420 /\
  lo st - 2 <= hi st /\
  (hi st = lo st - 2 -> fits (lo st - 1) = false) /\
  (forall q, In q (probes st) -> 11 <= q <= 420) /\
  ((best st = 12 /\ lo st = 12 /\ forall q, In q (probes st) -> fits q = false) \/
   (fits (best st) = true /\ In (best st) (probes st) /\ lo st = best st + 1 /\
    forall q, In q (probes st) -> fits q = true -> q <= best st)).

(** Every icon of the list carries the file name [generateIcons] gives it. *)
Definition namedBySize (icons : list Icon.t) : Prop :=
  Forall (fun icon => Icon.filename icon = iconFilename (Icon.size icon) (Icon.format icon)) icons.

(** The font weights of CSS. *)
Definition hundreds : list Z := [100; 200; 300; 400; 500; 600; 700; 800; 900].

(** ** Concrete pages and hosts *)

(** A measurement in which the text is [k] times as wide as the font size and
    exactly as high. *)
Definition linearMeasure (k : Z) : MeasureText :=
  fun font _ =>
    {| width := inject_Z (k * font_px font);
       actualBoundingBoxAscent := Some (inject_Z (font_px font));
       actualBoundingBoxDescent := Some (inject_Z 0) |}.

Definition hostWith (m : MeasureText) (zipLoaded : bool) : Host :=
  {| measureText := m;
     dateNow := fun n => 1700000000000 + 10 * Z.of_nat n;
     toISOString := "2024-05-17T09:30:15.000Z";
     decodes := fun _ => true;
     fetches := fun _ => true;
     JSZip := zipLoaded |}.

Definition box (value : Z) (checked : bool) : Checkbox :=
  {| cb_value := value; cb_checked := checked |}.

Definition radio (value : string) (checked : bool) : Radio :=
  {| r_value := value; r_checked := checked |}.

Definition pageWith (text : string) (boxes : list Checkbox) : Page :=
  {| iconText := text; textColor := "#ffffff"; bgColor := "#4F46E5";
     fontFamily := Some "Inter, Arial, sans-serif"; fontStyle := Some "normal";
     fontWeight := Some 700;
     iconSize := boxes;
     formatRadios := [radio "png" true; radio "jpeg" false; radio "webp" false] |}.

Definition emptyDatabase : Database := {| db_icons := []; db_settings := ∅ |}.

Definition appWith (p : Page) : App :=
  {| page := p; currentImage := None; generatedIcons := []; db := Some emptyDatabase;
     notifications := []; downloads := [] |}.

Definition standardBoxes : list Checkbox :=
  [box 16 true; box 32 false; box 72 true; box 192 true; box 512 false].

Definition pngFile (bytes : Z) : File.t :=
  {| File.name := "logo.png"; File.type := "image/png"; File.size := bytes |}.

(** ** More of the font search *)

(** What holds in addition before turn [k] when the fit test is monotone: the
    range still to search has at most [409 / 2^k] sizes, and no size of 12 or
    more above [hi] fits. *)
Definition fitMonoInv (fits : Z -> bool) (k : nat) (st : FitState) : Prop :=
  (hi st - lo st + 1 <= 409 / 2 ^ Z.of_nat k)%Z /\
  (forall s, (hi st < s <= 420)%Z -> (12 <= s)%Z -> fits s = false) /\
  fitInv fits st.

(** ** Numbers in strings *)

Definition isDecimalDigit (c : ascii) : bool :=
  (48 <=? nat_of_ascii c)%nat && (nat_of_ascii c <=? 57)%nat.

Definition isHexDigit (c : ascii) : bool :=
  isDecimalDigit c
  || ((97 <=? nat_of_ascii c)%nat && (nat_of_ascii c <=? 102)%nat)
  || ((65 <=? nat_of_ascii c)%nat && (nat_of_ascii c <=? 70)%nat).

(** The longest prefix of [s] whose characters satisfy [f]. *)
Fixpoint takeWhile (f : ascii -> bool) (s : string) : string :=
  match s with
  | EmptyString => EmptyString
  | String c rest => if f c then String c (takeWhile f rest) else EmptyString
  end.

(** The value of the longest prefix of decimal digits; [None] without one. *)
Definition parseDecimal (s : string) : option Z :=
  match takeWhile isDecimalDigit s with
  | EmptyString => None
  | digits => option_map Z.of_uint (NilEmpty.uint_of_string digits)
  end.

(** The value of the longest prefix of hexadecimal digits. *)
Definition parseHexadecimal (s : string) : option Z :=
  match takeWhile isHexDigit s with
  | EmptyString => None
  | digits => option_map Z.of_hex_uint (HexadecimalString.NilEmpty.uint_of_string digits)
  end.

(** [parseInt(s)] without a radix: leading white space is skipped, a sign is
    read, ["0x"] or ["0X"] announces hexadecimal digits, and the longest
    prefix of digits is the value.  [None] is NaN. *)
Definition parseInt (s : string) : option Z :=
  let s := trimStart s in
  let '(negative, s) :=
    match s with
    | String "-" rest => (true, rest)
    | String "+" rest => (false, rest)
    | _ => (false, s)
    end in
  let magnitude :=
    match s with
    | String "0" (String "x" rest) => parseHexadecimal rest
    | String "0" (String "X" rest) => parseHexadecimal rest
    | _ => parseDecimal s
    end in
  option_map (fun m => if negative then (- m)%Z else m) magnitude.

(** [n.toString()] for a number that is an integer or NaN. *)
Definition numberToString (n : option Z) : string :=
  match n with
  | Some z => numToString z
  | None => "NaN"
  end.

(** [s.includes(sub)] *)
Fixpoint includes (s sub : string) : bool :=
  String.prefix sub s ||
  match s with
  | EmptyString => false
  | String _ rest => includes rest sub
  end.

(** [s.startsWith(sub)] *)
Definition startsWith (s sub : string) : bool := String.prefix sub s.

(** [s.endsWith(sub)] *)
Definition endsWith (s sub : string) : bool :=
  (String.length sub <=? String.length s)%nat &&
  String.eqb (substring (String.length s - String.length sub) (String.length sub) s) sub.

(** ** Access control: the copy with a redirect counter *)

(** What a page load shows to the script. *)
Record Visit := {
  location_origin : string;
  referrer : string
}.

Module AccessControl.

Definition ALLOWED_ORIGINS : list string :=
  ["https://statelessplatform.com"; "https://www.statelessplatform.com";
   "http://localhost:3000"; "http://localhost:5500"].

Definition HUB_URL : string := "https://statelessplatform.com".

Definition MAX_REDIRECT_ATTEMPTS : Z := 2.

(** [getRedirectAttempts()], on [sessionStorage]. *)
Definition getRedirectAttempts (sessionStorage : gmap string string) : option Z :=
  parseInt (or_default (sessionStorage !! "redirectAttempts") "0").

(** [incrementRedirectAttempts()] *)
Definition incrementRedirectAttempts (sessionStorage : gmap string string)
    : gmap string string :=
  let attempts := option_map (fun n => (n + 1)%Z) (getRedirectAttempts sessionStorage) in
  <["redirectAttempts" := numberToString attempts]> sessionStorage.

(** [isAccessAllowed()]: the verdict and [sessionStorage] afterwards. *)
Definition isAccessAllowed (visit : Visit) (sessionStorage : gmap string string)
    : bool * gmap string string :=
  let currentOrigin := location_origin visit in
  let referrer := referrer visit in
  if existsb (String.eqb currentOrigin) ALLOWED_ORIGINS then
    (true, sessionStorage)
  else if negb (String.eqb referrer "")
          && existsb (fun origin => includes referrer origin) ALLOWED_ORIGINS then
    (true, delete "redirectAttempts" sessionStorage)
  else
    let isFromHub :=
      match sessionStorage !! "hubReferrer" with
      | Some v => String.eqb v "statelessplatform.com"
      | None => false
      end in
    if isFromHub then (true, delete "redirectAttempts" sessionStorage)
    else (false, sessionStorage).

(** [enforceHubAccess()]: [sessionStorage] afterwards, and the address given
    to [window.location.replace] if any. *)
Definition enforceHubAccess (visit : Visit) (sessionStorage : gmap string string)
    : gmap string string * option string :=
  let '(allowed, sessionStorage) := isAccessAllowed visit sessionStorage in
  if negb allowed then
    let attempts := getRedirectAttempts sessionStorage in
    let tooMany :=
      match attempts with
      | Some n => (MAX_REDIRECT_ATTEMPTS <=? n)%Z
      | None => false
      end in
    if tooMany then (sessionStorage, None)
    else (incrementRedirectAttempts sessionStorage, Some HUB_URL)
  else
    (delete "redirectAttempts" sessionStorage, None).

(** The script run on each of a series of page loads in one session: the
    redirects it asks for, in order, and [sessionStorage] at the end. *)
Fixpoint pageLoads (visits : list Visit) (sessionStorage : gmap string string)
    : list (option string) * gmap string string :=
  match visits with
  | [] => ([], sessionStorage)
  | visit :: rest =>
      let '(sessionStorage, redirect) := enforceHubAccess visit sessionStorage in
      let '(redirects, sessionStorage) := pageLoads rest sessionStorage in
      (redirect :: redirects, sessionStorage)
  end.

End AccessControl.

(** ** Access control: the copy without a counter *)

Module AccessControlSimple.

Definition ALLOWED_ORIGINS : list string :=
  ["https://statelessplatform.com"; "https://www.statelessplatform.com";
   "http://localhost:3000"; "http://localhost:5500"].

Definition HUB_URL : string := "https://statelessplatform.com".

(** [isAccessAllowed()] *)
Definition isAccessAllowed (visit : Visit) : bool :=
  let currentOrigin := location_origin visit in
  let referrer := referrer visit in
  if existsb (String.eqb currentOrigin) ALLOWED_ORIGINS then true
  else if negb (String.eqb referrer "")
          && existsb (fun origin => startsWith referrer origin) ALLOWED_ORIGINS then true
  else false.

(** [enforceHubAccess()]: the address given to [window.location.replace]. *)
Definition enforceHubAccess (visit : Visit) : option string :=
  if negb (isAccessAllowed visit) then Some HUB_URL else None.

End AccessControlSimple.

(** ** Previews and single downloads *)

(** One item of the preview grid: the icon it shows and the [data-index]
    attribute of its download button. *)
Record PreviewItem := {
  pv_icon : Icon.t;
  pv_index : string
}.

(** The items [showPreview()] puts into the grid, which it empties first. *)
Definition showPreview (app : App) : list PreviewItem :=
  imap (fun index icon => {| pv_icon := icon; pv_index := numToString (Z.of_nat index) |})
       (generatedIcons app).

(** [this.generatedIcons[index]] for a number [index]. *)
Definition iconAt (app : App) (index : option Z) : option Icon.t :=
  match index with
  | Some i => if (i <? 0)%Z then None else nth_error (generatedIcons app) (Z.to_nat i)
  | None => None
  end.

(** [downloadSingle(index)]: the application afterwards and the file offered
    through the clicked link, as name and content. *)
Definition downloadSingle (host : Host) (app : App) (index : option Z)
    : App * option (string * DataUrl) :=
  match iconAt app index with
  | None => (app, None)
  | Some icon =>
      if fetches host (Icon.dataUrl icon)
      then (showSuccess app ("Downloaded " ++ Icon.filename icon),
            Some (Icon.filename icon, Icon.dataUrl icon))
      else (showError app "Download failed", None)
  end.

(** The click listener [showPreview] binds to the button of an item. *)
Definition clickDownloadSingle (host : Host) (app : App) (item : PreviewItem)
    : App * option (string * DataUrl) :=
  downloadSingle host app (parseInt (pv_index item)).

(** ** The window around the application: install prompt, tabs, overlay *)

(** What the saved [beforeinstallprompt] event will do when [prompt()] is
    called and [userChoice] awaited. *)
Inductive PromptOutcome := Accepted | Dismissed | PromptFails.

Record InstallButton := {
  ib_display : string;
  ib_aria_hidden : string
}.

(** A [.tab-btn] element. *)
Record TabButton := {
  data_tab : string;
  btn_active : bool
}.

(** A [.tab-content] element. *)
Record TabContent := {
  content_id : string;
  content_active : bool
}.


(** The application with the rest of [this] and of the page.  [installBtn] and
    [installInstructions] are [None] when the page has no such element;
    [promptsShown] counts the calls of [prompt()]. *)
Record Ui := {
  ui_app : App;
  deferredPrompt : option PromptOutcome;
  isInstallable : bool;
  installBtn : option InstallButton;
  installInstructions : option string;
  tabButtons : list TabButton;
  tabContents : list TabContent;
  loadingOverlay : string;
  promptsShown : nat
}.

Definition set_ui_app (ui : Ui) (app : App) : Ui :=
  {| ui_app := app; deferredPrompt := deferredPrompt ui; isInstallable := isInstallable ui;
     installBtn := installBtn ui; installInstructions := installInstructions ui;
     tabButtons := tabButtons ui; tabContents := tabContents ui;
     loadingOverlay := loadingOverlay ui; promptsShown := promptsShown ui |}.

Definition set_prompt (ui : Ui) (prompt : option PromptOutcome) (installable : bool) : Ui :=
  {| ui_app := ui_app ui; deferredPrompt := prompt; isInstallable := installable;
     installBtn := installBtn ui; installInstructions := installInstructions ui;
     tabButtons := tabButtons ui; tabContents := tabContents ui;
     loadingOverlay := loadingOverlay ui; promptsShown := promptsShown ui |}.

Definition set_installBtn (ui : Ui) (button : option InstallButton) : Ui :=
  {| ui_app := ui_app ui; deferredPrompt := deferredPrompt ui; isInstallable := isInstallable ui;
     installBtn := button; installInstructions := installInstructions ui;
     tabButtons := tabButtons ui; tabContents := tabContents ui;
     loadingOverlay := loadingOverlay ui; promptsShown := promptsShown ui |}.

Definition set_installInstructions (ui : Ui) (display : option string) : Ui :=
  {| ui_app := ui_app ui; deferredPrompt := deferredPrompt ui; isInstallable := isInstallable ui;
     installBtn := installBtn ui; installInstructions := display;
     tabButtons := tabButtons ui; tabContents := tabContents ui;
     loadingOverlay := loadingOverlay ui; promptsShown := promptsShown ui |}.

Definition set_tabs (ui : Ui) (buttons : list TabButton) (contents : list TabContent) : Ui :=
  {| ui_app := ui_app ui; deferredPrompt := deferredPrompt ui; isInstallable := isInstallable ui;
     installBtn := installBtn ui; installInstructions := installInstructions ui;
     tabButtons := buttons; tabContents := contents;
     loadingOverlay := loadingOverlay ui; promptsShown := promptsShown ui |}.


Definition count_prompt (ui : Ui) : Ui :=
  {| ui_app := ui_app ui; deferredPrompt := deferredPrompt ui; isInstallable := isInstallable ui;
     installBtn := installBtn ui; installInstructions := installInstructions ui;
     tabButtons := tabButtons ui; tabContents := tabContents ui;
     loadingOverlay := loadingOverlay ui; promptsShown := S (promptsShown ui) |}.

(** [showInstallButton()] *)
Definition showInstallButton (ui : Ui) : Ui :=
  match installBtn ui with
  | Some _ => set_installBtn ui (Some {| ib_display := "flex"; ib_aria_hidden := "false" |})
  | None => ui
  end.

(** [hideInstallButton()] *)
Definition hideInstallButton (ui : Ui) : Ui :=
  match installBtn ui with
  | Some _ => set_installBtn ui (Some {| ib_display := "none"; ib_aria_hidden := "true" |})
  | None => ui
  end.

(** [showInstallInstructions()] *)
Definition showInstallInstructions (ui : Ui) : Ui :=
  match installInstructions ui with
  | Some _ => set_installInstructions ui (Some "block")
  | None => ui
  end.

(** [hideInstallInstructions()] *)
Definition hideInstallInstructions (ui : Ui) : Ui :=
  match installInstructions ui with
  | Some _ => set_installInstructions ui (Some "none")
  | None => ui
  end.

(** The [beforeinstallprompt] listener of [initPWAFeatures]. *)
Definition onBeforeInstallPrompt (ui : Ui) (e : PromptOutcome) : Ui :=
  showInstallInstructions (showInstallButton (set_prompt ui (Some e) true)).

(** The [appinstalled] listener of [initPWAFeatures]. *)
Definition onAppInstalled (ui : Ui) : Ui :=
  let ui := hideInstallInstructions (hideInstallButton ui) in
  let ui := set_ui_app ui (showSuccess (ui_app ui) "IconForge installed successfully!") in
  set_prompt ui None (isInstallable ui).

(** The double quote character. *)
Definition doubleQuote : string := String (ascii_of_nat 34) EmptyString.

(** [installPWA()] *)
Definition installPWA (ui : Ui) : Ui :=
  match deferredPrompt ui with
  | None =>
      let ui := showInstallInstructions ui in
      set_ui_app ui
        (showFeedback (ui_app ui)
           ("Use your browser's install option or " ++ doubleQuote
              ++ "Add to Home Screen" ++ doubleQuote))
  | Some outcome =>
      let ui := count_prompt ui in
      match outcome with
      | Accepted =>
          let ui := set_ui_app ui (showSuccess (ui_app ui) "Installing IconForge...") in
          set_prompt ui None false
      | Dismissed =>
          let ui := set_ui_app ui (showFeedback (ui_app ui) "Installation cancelled") in
          set_prompt ui None false
      | PromptFails =>
          set_ui_app ui
            (showError (ui_app ui)
               "Installation failed. Try using your browser's install option.")
      end
  end.

(** [classList.add('active')] on the element that
    [document.getElementById(id)] finds among the tab contents: the first with
    that id. *)
Fixpoint activateContent (id : string) (contents : list TabContent) : list TabContent :=
  match contents with
  | [] => []
  | content :: rest =>
      if String.eqb (content_id content) id
      then {| content_id := content_id content; content_active := true |} :: rest
      else content :: activateContent id rest
  end.

(** [switchTab(event)], where [event.currentTarget] is the tab button at
    position [clicked]. *)
Definition switchTab (ui : Ui) (clicked : nat) : Ui :=
  match nth_error (tabButtons ui) clicked with
  | None => ui
  | Some clickedTab =>
      let targetTab := data_tab clickedTab in
      let buttons :=
        imap (fun i btn => {| data_tab := data_tab btn; btn_active := Nat.eqb i clicked |})
             (tabButtons ui) in
      let contents :=
        map (fun content => {| content_id := content_id content; content_active := false |})
            (tabContents ui) in
      set_tabs ui buttons (activateContent (targetTab ++ "-tab") contents)
  end.





(** ** The service worker *)

Module ServiceWorker.

Definition CACHE_NAME : string := "iconforge-v1.0.0".
Definition STATIC_CACHE : string := "iconforge-static-v1".
Definition DYNAMIC_CACHE : string := "iconforge-dynamic-v1".

Definition STATIC_ASSETS : list string :=
  ["/"; "/index.html"; "/styles.css"; "/script.js"; "/manifest.json"].

(** [RUNTIME_CACHE_PATTERNS]: each pattern is [^] followed by a literal text,
    kept as that text. *)
Definition RUNTIME_CACHE_PATTERNS : list string :=
  ["https://fonts.googleapis.com"; "https://fonts.gstatic.com"; "https://unpkg.com"].

(** A [Request], with the parts of [new URL(request.url)] the code reads and
    the value of its [accept] header. *)
Record Request := {
  method : string;
  url : string;
  url_protocol : string;
  url_origin : string;
  url_pathname : string;
  accept : option string;
  mode : string
}.

(** The body of a response: what the network sent, or the offline page that
    [createOfflinePage] writes. *)
Inductive Body :=
| Fetched (content : string)
| OfflineHTML.

Record Response := {
  ok : bool;
  body : Body
}.

(** What [fetch(request)] does. *)
Inductive FetchResult :=
| Resolves (response : Response)
| Rejects.

(** What a handler leaves to [event.respondWith]. *)
Inductive Outcome :=
| Responds (response : Response)
| RespondsUndefined
| Throws.

Inductive Strategy := CacheFirst | StaleWhileRevalidate | NetworkFirst.

(** [createOfflinePage()]: a response made with [new Response] has status 200. *)
Definition createOfflinePage : Response := {| ok := true; body := OfflineHTML |}.

(** [caches.match(request)] on the cache storage, a list of named caches in
    the order of their creation, each keyed by URL: the first entry found. *)
Fixpoint cachesMatch (caches : list (string * gmap string Response)) (url : string)
    : option Response :=
  match caches with
  | [] => None
  | (_, cache) :: rest =>
      match cache !! url with
      | Some response => Some response
      | None => cachesMatch rest url
      end
  end.

(** [caches.open(name)]: a cache that does not exist is created. *)
Fixpoint cachesOpen (name : string) (caches : list (string * gmap string Response))
    : list (string * gmap string Response) :=
  match caches with
  | [] => [(name, ∅)]
  | (n, cache) :: rest =>
      if String.eqb n name then (n, cache) :: rest
      else (n, cache) :: cachesOpen name rest
  end.

(** The content of the cache called [name]. *)
Fixpoint cacheNamed (name : string) (caches : list (string * gmap string Response))
    : gmap string Response :=
  match caches with
  | [] => ∅
  | (n, cache) :: rest => if String.eqb n name then cache else cacheNamed name rest
  end.

(** [caches.open(name)] followed by [cache.put(request, response)]. *)
Fixpoint cachePut (name url : string) (response : Response)
    (caches : list (string * gmap string Response))
    : list (string * gmap string Response) :=
  match caches with
  | [] => [(name, {[url := response]})]
  | (n, cache) :: rest =>
      if String.eqb n name then (n, <[url := response]> cache) :: rest
      else (n, cache) :: cachePut name url response rest
  end.

(** [caches.delete(name)] *)
Definition cachesDelete (name : string) (caches : list (string * gmap string Response))
    : list (string * gmap string Response) :=
  List.filter (fun entry => negb (String.eqb (fst entry) name)) caches.

(** The [activate] listener: the caches whose name is none of the three
    current ones are deleted one by one. *)
Definition onActivate (caches : list (string * gmap string Response))
    : list (string * gmap string Response) :=
  fold_left (fun caches cacheName => cachesDelete cacheName caches)
    (List.filter (fun cacheName =>
                    negb (String.eqb cacheName STATIC_CACHE)
                    && negb (String.eqb cacheName DYNAMIC_CACHE)
                    && negb (String.eqb cacheName CACHE_NAME))
                 (map fst caches))
    caches.

(** [clearAllCaches()] *)
Definition clearAllCaches (caches : list (string * gmap string Response))
    : list (string * gmap string Response) :=
  fold_left (fun caches cacheName => cachesDelete cacheName caches) (map fst caches) caches.

(** [isStaticAsset(request)], [location.origin] being [origin]; the pattern
    asks for a path that ends in [.css], [.js], [.html] or [.json]. *)
Definition isStaticAsset (origin : string) (request : Request) : bool :=
  if String.eqb (url_origin request) origin then
    existsb (fun extension => endsWith (url_pathname request) extension)
            [".css"; ".js"; ".html"; ".json"]
  else
    existsb (fun asset => includes (url request) asset) STATIC_ASSETS.

(** [isRuntimeCacheable(request)] *)
Definition isRuntimeCacheable (request : Request) : bool :=
  existsb (fun pattern => startsWith (url request) pattern) RUNTIME_CACHE_PATTERNS.

(** The choice made by the [fetch] listener; [None] when it returns without
    [respondWith]. *)
Definition chooseStrategy (origin : string) (request : Request) : option Strategy :=
  if negb (String.eqb (method request) "GET") then None
  else if String.eqb (url_protocol request) "chrome-extension:" then None
  else if isStaticAsset origin request then Some CacheFirst
  else if isRuntimeCacheable request then Some StaleWhileRevalidate
  else Some NetworkFirst.

Section Handlers.

Variable network : string -> FetchResult.

(** [handleStaticAsset(request)] *)
Definition handleStaticAsset (caches : list (string * gmap string Response))
    (request : Request) : list (string * gmap string Response) * Outcome :=
  match cachesMatch caches (url request) with
  | Some cachedResponse => (caches, Responds cachedResponse)
  | None =>
      match network (url request) with
      | Resolves networkResponse =>
          (if ok networkResponse
           then cachePut STATIC_CACHE (url request) networkResponse caches
           else caches,
           Responds networkResponse)
      | Rejects =>
          match accept request with
          | Some value =>
              if includes value "text/html" then (caches, Responds createOfflinePage)
              else (caches, Throws)
          | None => (caches, Throws)
          end
      end
  end.

(** [handleRuntimeCache(request)] *)
Definition handleRuntimeCache (caches : list (string * gmap string Response))
    (request : Request) : list (string * gmap string Response) * Outcome :=
  let caches := cachesOpen DYNAMIC_CACHE caches in
  let cachedResponse := cacheNamed DYNAMIC_CACHE caches !! url request in
  let '(caches, networkFetch) :=
    match network (url request) with
    | Resolves response =>
        (if ok response then cachePut DYNAMIC_CACHE (url request) response caches
         else caches,
         Some response)
    | Rejects => (caches, cachedResponse)
    end in
  (caches,
   match cachedResponse with
   | Some response => Responds response
   | None =>
       match networkFetch with
       | Some response => Responds response
       | None => RespondsUndefined
       end
   end).

(** [handleNetworkFirst(request)] *)
Definition handleNetworkFirst (caches : list (string * gmap string Response))
    (request : Request) : list (string * gmap string Response) * Outcome :=
  match network (url request) with
  | Resolves networkResponse =>
      (if ok networkResponse && startsWith (url request) "http"
       then cachePut DYNAMIC_CACHE (url request) networkResponse caches
       else caches,
       Responds networkResponse)
  | Rejects =>
      match cachesMatch caches (url request) with
      | Some cachedResponse => (caches, Responds cachedResponse)
      | None =>
          if String.eqb (mode request) "navigate"
          then (caches, Responds createOfflinePage)
          else (caches, Throws)
      end
  end.

(** The [fetch] listener: [None] when the request is left to the browser. *)
Definition onFetch (origin : string) (caches : list (string * gmap string Response))
    (request : Request) : option (list (string * gmap string Response) * Outcome) :=
  match chooseStrategy origin request with
  | None => None
  | Some CacheFirst => Some (handleStaticAsset caches request)
  | Some StaleWhileRevalidate => Some (handleRuntimeCache caches request)
  | Some NetworkFirst => Some (handleNetworkFirst caches request)
  end.

End Handlers.

End ServiceWorker.

(** ** More concrete data *)

Definition visitFrom (origin : string) (ref : string) : Visit :=
  {| location_origin := origin; referrer := ref |}.

Definition getRequest (address origin path : string) : ServiceWorker.Request :=
  {| ServiceWorker.method := "GET"; ServiceWorker.url := address;
     ServiceWorker.url_protocol := "https:"; ServiceWorker.url_origin := origin;
     ServiceWorker.url_pathname := path; ServiceWorker.accept := Some "text/css,*/*;q=0.1";
     ServiceWorker.mode := "no-cors" |}.

Definition okResponse (content : string) : ServiceWorker.Response :=
  {| ServiceWorker.ok := true; ServiceWorker.body := ServiceWorker.Fetched content |}.

Definition uiWith (app : App) (prompt : option PromptOutcome) : Ui :=
  {| ui_app := app; deferredPrompt := prompt; isInstallable := false;
     installBtn := Some {| ib_display := "none"; ib_aria_hidden := "true" |};
     installInstructions := Some "none";
     tabButtons := [{| data_tab := "upload"; btn_active := true |};
                    {| data_tab := "text"; btn_active := false |}];
     tabContents := [{| content_id := "upload-tab"; content_active := true |};
                     {| content_id := "text-tab"; content_active := false |}];
     loadingOverlay := "none"; promptsShown := 0 |}.

(** A host on which no file decodes and no fetch succeeds. *)
Definition brokenHost : Host :=
  {| measureText := linearMeasure 1;
     dateNow := fun n => 1700000000000 + 10 * Z.of_nat n;
     toISOString := "2024-05-17T09:30:15.000Z";
     decodes := fun _ => false;
     fetches := fun _ => false;
     JSZip := true |}.

Definition appWithout (p : Page) : App :=
  {| page := p; currentImage := None; generatedIcons := []; db := None;
     notifications := []; downloads := [] |}.

(** * Properties *)

Local Open Scope Z_scope.

(** ** The font search *)

Section FitProperties.

Variable measureText : MeasureText.
Variables (text : string) (maxW maxH : Q) (style : string) (weight : Z) (family : string).

Let fits : Z -> bool := fitsAt measureText text maxW maxH style weight family.
Let step : FitState -> FitState := fitStep measureText text maxW maxH style weight family.
Let loop : nat -> FitState -> FitState := fitLoop measureText text maxW maxH style weight family.

Lemma fitStep_fit st :
  fits ((lo st + hi st) / 2) = true ->
  lo (step st) = (lo st + hi st) / 2 + 1 /\ hi (step st) = hi st /\
  best (step st) = (lo st + hi st) / 2 /\
  probes (step st) = (probes st ++ [(lo st + hi st) / 2])%list.
Proof.
  unfold step, fitStep, fits. intros ->. simpl. auto.
Qed.

Lemma fitStep_no_fit st :
  fits ((lo st + hi st) / 2) = false ->
  lo (step st) = lo st /\ hi (step st) = (lo st + hi st) / 2 - 1 /\
  best (step st) = best st /\
  probes (step st) = (probes st ++ [(lo st + hi st) / 2])%list.
Proof.
  unfold step, fitStep, fits. intros ->. simpl. auto.
Qed.


Lemma fitInit_inv : fitInv fits fitInit.
Proof.
  unfold fitInv, fitInit; simpl.
  repeat split; try lia; try (intros ? []).
  left. repeat split; intros ? [].
Qed.

Lemma fitStep_inv st : fitInv fits st -> fitInv fits (step st).
Proof.
  intros (Hlo & Hhi & Hcross & Hgap & Hrange & Hbest).
  set (mid := (lo st + hi st) / 2).
  assert (Hmid : 2 * mid <= lo st + hi st <= 2 * mid + 1 /\
                 lo st - 1 <= mid <= hi st + 1 /\ 11 <= mid <= 420).
  { pose proof (Z.div_mod (lo st + hi st) 2 ltac:(lia)) as Hdm.
    pose proof (Z.mod_pos_bound (lo st + hi st) 2 ltac:(lia)) as Hmb.
    fold mid in Hdm. lia. }
  destruct (fits mid) eqn:Hfit.
  - destruct (fitStep_fit st Hfit) as (E1 & E2 & E3 & E4). fold mid in E1, E3, E4.
    unfold fitInv. rewrite E1, E2, E3, E4.
    split; [ lia | ]. split; [ lia | ]. split; [ lia | ]. split; [ | split ].
    + intros E. assert (E' : hi st = lo st - 2) by lia.
      specialize (Hgap E'). replace (lo st - 1) with mid in Hgap by lia. congruence.
    + intros q [Hq | [<- | []]]%in_app_or; [ apply (Hrange q Hq) | lia ].
    + right. split; [ exact Hfit | ]. split; [ | split; [ reflexivity | ] ].
      * apply in_or_app; right; left; reflexivity.
      * intros q [Hq | [<- | []]]%in_app_or Hfq; [ | lia ].
        destruct Hbest as [(_ & _ & Hnone) | (_ & _ & Hlb & Hmax)].
        -- rewrite (Hnone q Hq) in Hfq; discriminate.
        -- specialize (Hmax q Hq Hfq). lia.
  - destruct (fitStep_no_fit st Hfit) as (E1 & E2 & E3 & E4). fold mid in E2, E4.
    unfold fitInv. rewrite E1, E2, E3, E4.
    split; [ lia | ]. split; [ lia | ]. split; [ lia | ]. split; [ | split ].
    + intros E. replace (lo st - 1) with mid by lia. exact Hfit.
    + intros q [Hq | [<- | []]]%in_app_or; [ apply (Hrange q Hq) | lia ].
    + destruct Hbest as [(Hb & Hl & Hnone) | (Hfb & Hin & Hlb & Hmax)].
      * left. split; [ exact Hb | ]. split; [ exact Hl | ].
        intros q [Hq | [<- | []]]%in_app_or; auto.
      * right. split; [ exact Hfb | ]. split; [ | split; [ exact Hlb | ] ].
        -- apply in_or_app; left; exact Hin.
        -- intros q [Hq | [<- | []]]%in_app_or Hfq; [ auto | congruence ].
Qed.

Lemma fitLoop_inv n st : fitInv fits st -> fitInv fits (loop n st).
Proof.
  revert st. induction n as [| n IH]; intros st Hst; simpl; [ exact Hst | ].
  apply IH, fitStep_inv, Hst.
Qed.

Lemma fitStep_probes_length st : length (probes (step st)) = S (length (probes st)).
Proof.
  unfold step, fitStep. destruct (fitsAt _ _ _ _ _ _ _ _); simpl;
    rewrite length_app; simpl; lia.
Qed.

Lemma fitLoop_probes_length n st :
  length (probes (loop n st)) = (n + length (probes st))%nat.
Proof.
  revert st. induction n as [| n IH]; intros st; simpl; [ reflexivity | ].
  unfold loop in IH. rewrite IH. fold step. rewrite fitStep_probes_length. lia.
Qed.

Lemma fitFinal_inv :
  fitInv fits (fitFinal measureText text maxW maxH style weight family).
Proof. apply fitLoop_inv, fitInit_inv. Qed.

Lemma fitFinal_probes_length :
  length (probes (fitFinal measureText text maxW maxH style weight family)) = 14%nat.
Proof. unfold fitFinal. apply (fitLoop_probes_length 14 fitInit). Qed.


(** When nothing measured fit, the result is the initial 12. *)
Lemma fitFinal_nothing_fits :
  let final := fitFinal measureText text maxW maxH style weight family in
  (forall q, In q (probes final) -> fits q = false) -> best final = 12.
Proof.
  intros final Hnone.
  destruct fitFinal_inv as (_ & _ & _ & _ & _ & Hbest). fold final in Hbest.
  destruct Hbest as [(Hb & _) | (Hfb & Hin & _)]; [ exact Hb | ].
  rewrite (Hnone _ Hin) in Hfb. discriminate.
Qed.

(** The result is never below 11 nor above 420. *)
Lemma fitFinal_range :
  11 <= best (fitFinal measureText text maxW maxH style weight family) <= 420.
Proof.
  destruct fitFinal_inv as (_ & _ & _ & _ & Hrange & Hbest).
  destruct Hbest as [(Hb & _) | (_ & Hin & _)]; [ lia | exact (Hrange _ Hin) ].
Qed.

End FitProperties.






(** [fitTextToCanvas] always returns: it makes its 14 probes and yields a size
    between 11 and 420; when nothing it measured fit, that size is 12. *)
Lemma fitTextToCanvas_total :
  forall (measureText : MeasureText) (text : string) (maxW maxH : Q)
         (style : string) (weight : Z) (family : string),
    let final := fitFinal measureText text maxW maxH style weight family in
    let result := fitTextToCanvas measureText text maxW maxH style weight family in
    length (probes final) = 14%nat /\
    11 <= result <= 420 /\
    ((forall q, In q (probes final) ->
                fitsAt measureText text maxW maxH style weight family q = false) ->
     result = 12).
Proof.
  intros. split; [ apply fitFinal_probes_length | ].
  split; [ apply fitFinal_range | apply fitFinal_nothing_fits ].
Qed.

Lemma linearMeasure_fits (k px : Z) (text style : string) (weight : Z) (family : string) :
  fitsAt (linearMeasure k) text (inject_Z 416) (inject_Z 416) style weight family px
  = (k * px <=? 416) && (px <=? 416).
Proof.
  unfold fitsAt, probeWidth, probeHeight, linearMeasure, probeFont, nullish,
    Qle_bool, Qplus, inject_Z.
  cbn [width actualBoundingBoxAscent actualBoundingBoxDescent font_px Qnum Qden].
  f_equal; apply eq_iff_eq_true; rewrite !Z.leb_le; lia.
Qed.

(** C9 (the code departs from it).  For a text 36 times as wide as the font
    size, the 416 pixel box holds it exactly at the sizes up to 11, so no size
    in [12..420] fits; the search measures 216, 113, 62, 36, 23, 17, 14, 12 and
    then, its bounds having crossed, 11, six times over, and returns 11
    instead of the minimum 12. *)
Theorem fitTextToCanvas_returns_11 :
  let fits := fitsAt (linearMeasure 36) "WWW" (inject_Z 416) (inject_Z 416)
                "normal" 700 "Arial" in
  let final := fitFinal (linearMeasure 36) "WWW" (inject_Z 416) (inject_Z 416)
                 "normal" 700 "Arial" in
  (forall px, fits px = (px <=? 11)) /\
  probes final = [216; 113; 62; 36; 23; 17; 14; 12; 11; 11; 11; 11; 11; 11] /\
  lo final = 12 /\ hi final = 11 /\
  fitTextToCanvas (linearMeasure 36) "WWW" (inject_Z 416) (inject_Z 416)
    "normal" 700 "Arial" = 11.
Proof.
  intros fits final. split.
  - intros px. unfold fits. rewrite linearMeasure_fits.
    apply eq_iff_eq_true. rewrite andb_true_iff, !Z.leb_le. lia.
  - vm_compute. repeat split; reflexivity.
Qed.

(** ** The font weight *)

Lemma Math_round_hundredth (w : Z) :
  Math_round (inject_Z w / inject_Z 100) = (w + 50) / 100.
Proof.
  unfold Math_round, Qfloor, Qdiv, Qinv, Qmult, Qplus, inject_Z. cbn [Qnum Qden].
  change (Z.pos (1 * 100 * 2)) with 200. change (Z.pos (1 * 100)) with 100.
  pose proof (Z.div_mod (w * 1 * 2 + 1 * 100) 200 ltac:(lia)).
  pose proof (Z.mod_pos_bound (w * 1 * 2 + 1 * 100) 200 ltac:(lia)).
  pose proof (Z.div_mod (w + 50) 100 ltac:(lia)).
  pose proof (Z.mod_pos_bound (w + 50) 100 ltac:(lia)).
  lia.
Qed.

Lemma normalizeWeight_hundreds (w : Z) : In (FontControls.normalizeWeight w) hundreds.
Proof.
  unfold FontControls.normalizeWeight. rewrite Math_round_hundredth.
  set (k := (w + 50) / 100).
  assert (Hk : k <= 1 \/ k = 2 \/ k = 3 \/ k = 4 \/ k = 5 \/ k = 6 \/ k = 7 \/ k = 8 \/ 9 <= k)
    by lia.
  unfold hundreds.
  destruct Hk as [Hk | [-> | [-> | [-> | [-> | [-> | [-> | [-> | Hk]]]]]]]];
    [ replace (Z.min 900 (Z.max 100 (k * 100))) with 100 by lia
    | | | | | | |
    | replace (Z.min 900 (Z.max 100 (k * 100))) with 900 by lia ];
    simpl; tauto.
Qed.

Lemma Math_round_nearest (w m k : Z) :
  m = 100 * k ->
  Z.abs (Math_round (inject_Z w / inject_Z 100) * 100 - w) <= Z.abs (m - w).
Proof.
  intros ->. rewrite Math_round_hundredth.
  pose proof (Z.div_mod (w + 50) 100 ltac:(lia)).
  pose proof (Z.mod_pos_bound (w + 50) 100 ltac:(lia)).
  lia.
Qed.

(** C8.  For every integer weight [w] read from the control, the weight the
    rasterizer works with is [min(900, max(100, round(w / 100) * 100))], where
    [round(w / 100) * 100] is a multiple of 100 at least as near to [w] as any
    other; it is one of 100, 200, ..., 900, and it is the weight of the font
    that [fitTextToCanvas] measures with and of the font the text is drawn
    with. *)
Theorem normalizeWeight_nearest_hundred_clamped :
  forall w : Z,
    let nearest := Math_round (inject_Z w / inject_Z 100) * 100 in
    FontControls.normalizeWeight w = Z.min 900 (Z.max 100 nearest) /\
    (exists k, nearest = 100 * k) /\
    (forall m k, m = 100 * k -> Z.abs (nearest - w) <= Z.abs (m - w)) /\
    In (FontControls.normalizeWeight w) hundreds /\
    (forall (host : Host) (p : Page),
        fontWeight p = Some w ->
        let style := or_default (fontStyle p) "normal" in
        let family := or_default (fontFamily p) "Inter, Arial, sans-serif" in
        let inset := inject_Z (512 - 2 * 48) in
        FontControls.fittedPx host p
        = fitTextToCanvas (measureText host) (trim (iconText p)) inset inset
            style (FontControls.normalizeWeight w) family /\
        (forall mid, font_weight (probeFont style (FontControls.normalizeWeight w) family mid)
                     = FontControls.normalizeWeight w) /\
        exists font,
          canvas_ops (FontControls.textCanvas host p)
          = [FillRect (bgColor p) 0 0 512 512;
             FillText (textColor p) font (trim (iconText p)) 256 256] /\
          font_weight font = FontControls.normalizeWeight w).
Proof.
  intros w nearest.
  split; [ reflexivity | ].
  split; [ exists (Math_round (inject_Z w / inject_Z 100)); unfold nearest; lia | ].
  split; [ intros m k Hm; apply (Math_round_nearest w m k Hm) | ].
  split; [ apply normalizeWeight_hundreds | ].
  intros host p Hw style family inset.
  assert (Htw : FontControls.textWeight p = FontControls.normalizeWeight w)
    by (unfold FontControls.textWeight; rewrite Hw; reflexivity).
  split; [ unfold FontControls.fittedPx; rewrite Htw; reflexivity | ].
  split; [ reflexivity | ].
  eexists. split; [ reflexivity | ]. simpl. exact Htw.
Qed.

Lemma normalizeWeight_nearest_hundred_clamped_witness :
  Z.abs (Math_round (inject_Z 449 / inject_Z 100) * 100 - 449) <= Z.abs (500 - 449) /\
  FontControls.fittedPx (hostWith (linearMeasure 1) true) (pageWith "AB" standardBoxes)
  = fitTextToCanvas (linearMeasure 1) "AB" (inject_Z 416) (inject_Z 416)
      "normal" (FontControls.normalizeWeight 700) "Inter, Arial, sans-serif".
Proof.
  split.
  - destruct (normalizeWeight_nearest_hundred_clamped 449) as (_ & _ & Hnear & _).
    apply (Hnear 500 5). reflexivity.
  - destruct (normalizeWeight_nearest_hundred_clamped 700) as (_ & _ & _ & _ & Hpage).
    destruct (Hpage (hostWith (linearMeasure 1) true) (pageWith "AB" standardBoxes))
      as (Hpx & _); [ reflexivity | exact Hpx ].
Defined.

(** ** The emitter *)

Section GenerateIcons.

Variables (host : Host) (sourceImage : Image) (type format : string).

Let make := makeIcon host sourceImage type format.
Let from := generateIconsFrom host sourceImage type format.

Lemma makeIcon_fields i size :
  Icon.size (make i size) = size /\
  Icon.format (make i size) = format /\
  Icon.type (make i size) = type /\
  Icon.filename (make i size) = iconFilename size format.
Proof.
  unfold make, makeIcon. destruct (mimeTypeAndQuality format). simpl. auto.
Qed.

(** The loop only appends to what the list holds when it starts. *)
Lemma generateIconsFrom_app i sizes icons :
  from i sizes icons = (icons ++ from i sizes [])%list.
Proof.
  revert i icons. induction sizes as [| size rest IH]; intros i icons; simpl.
  - rewrite app_nil_r. reflexivity.
  - unfold from in *. simpl. rewrite (IH (S i) (icons ++ _)%list), (IH (S i) [_]).
    rewrite <- app_assoc. reflexivity.
Qed.

Lemma generateIconsFrom_cons i size rest :
  from i (size :: rest) [] = make i size :: from (S i) rest [].
Proof.
  unfold from. simpl. apply (generateIconsFrom_app (S i) rest [_]).
Qed.

Lemma generateIconsFrom_length i sizes : length (from i sizes []) = length sizes.
Proof.
  revert i. induction sizes as [| size rest IH]; intros i; [ reflexivity | ].
  rewrite generateIconsFrom_cons. simpl. rewrite IH. reflexivity.
Qed.

Lemma generateIconsFrom_sizes i sizes : map Icon.size (from i sizes []) = sizes.
Proof.
  revert i. induction sizes as [| size rest IH]; intros i; [ reflexivity | ].
  rewrite generateIconsFrom_cons. simpl. rewrite IH.
  destruct (makeIcon_fields i size) as (-> & _). reflexivity.
Qed.


Lemma generateIconsFrom_Forall (P : Icon.t -> Prop) i sizes :
  (forall j size, P (make j size)) -> Forall P (from i sizes []).
Proof.
  intros HP. revert i. induction sizes as [| size rest IH]; intros i.
  - constructor.
  - rewrite generateIconsFrom_cons. constructor; [ apply HP | apply IH ].
Qed.

End GenerateIcons.

Lemma generateIcons_icons host app sourceImage type :
  generatedIcons (generateIcons host app sourceImage type)
  = generateIconsFrom host sourceImage type (getSelectedFormat (page app)) 0
      (getSelectedSizes (page app)) [].
Proof. reflexivity. Qed.

Lemma generateIcons_length_sizes host app sourceImage type :
  length (generatedIcons (generateIcons host app sourceImage type))
  = length (getSelectedSizes (page app)) /\
  map Icon.size (generatedIcons (generateIcons host app sourceImage type))
  = getSelectedSizes (page app).
Proof.
  rewrite generateIcons_icons.
  split; [ apply generateIconsFrom_length | apply generateIconsFrom_sizes ].
Qed.


(** ** The web-app manifest *)

Lemma pwaIcon_purpose icon :
  (purpose (pwaIcon icon) = "maskable any" <-> 192 <= Icon.size icon) /\
  (purpose (pwaIcon icon) = "any" <-> Icon.size icon < 192).
Proof.
  unfold pwaIcon; simpl.
  destruct (Z.leb_spec 192 (Icon.size icon)); split; split; intros; try lia;
    try reflexivity; discriminate.
Qed.

Lemma generatePWAManifest_empty app :
  generatedIcons app = [] ->
  generatePWAManifest app = showError app "Generate icons first".
Proof. intros H. unfold generatePWAManifest. rewrite H. reflexivity. Qed.

(** C4.  With at least one generated icon, [generatePWAManifest] downloads a
    manifest whose [icons] array has, in order, one entry for each generated
    icon of size 72 or more and none for the others; the entry names the
    icon's file, and its [purpose] is "maskable any" exactly when the size is
    192 or more, "any" exactly when it is less. *)
Theorem generatePWAManifest_icons_filtered :
  forall app : App,
    generatedIcons app <> [] ->
    let kept := List.filter (fun icon => 72 <=? Icon.size icon) (generatedIcons app) in
    exists manifest,
      downloads (generatePWAManifest app)
      = (downloads app ++ [DownloadManifest "manifest.json" manifest])%list /\
      (forall icon, In icon kept <-> In icon (generatedIcons app) /\ 72 <= Icon.size icon) /\
      icons manifest = map pwaIcon kept /\
      Forall2 (fun icon entry =>
                 src entry = Icon.filename icon /\
                 (purpose entry = "maskable any" <-> 192 <= Icon.size icon) /\
                 (purpose entry = "any" <-> Icon.size icon < 192))
        kept (icons manifest).
Proof.
  intros app Hne kept. exists (pwaManifest app).
  split.
  { unfold generatePWAManifest.
    destruct (generatedIcons app) as [| icon rest] eqn:Hicons; [ congruence | ].
    reflexivity. }
  split.
  { intros icon. unfold kept. rewrite filter_In, Z.leb_le. tauto. }
  split; [ reflexivity | ].
  change (icons (pwaManifest app)) with (map pwaIcon kept).
  induction kept as [| icon rest IH]; simpl; constructor; [ | exact IH ].
  split; [ reflexivity | apply pwaIcon_purpose ].
Qed.

Lemma generatePWAManifest_icons_filtered_witness :
  let host := hostWith (linearMeasure 1) true in
  let app := generateIcons host (appWith (pageWith "AB" standardBoxes))
               (FileImage (pngFile 2048)) "upload" in
  exists manifest,
    downloads (generatePWAManifest app) = [DownloadManifest "manifest.json" manifest] /\
    map purpose (icons manifest) = ["any"; "maskable any"].
Proof.
  intros host app.
  destruct (generatePWAManifest_icons_filtered app) as (manifest & Hd & _ & Hicons & _).
  - vm_compute. discriminate.
  - exists manifest. split; [ exact Hd | ]. rewrite Hicons. vm_compute. reflexivity.
Defined.

(** ** Settings *)






(** C10.  A stored record whose [selectedSizes] is empty (or absent) leaves
    every size checkbox as it was, and one without [outputFormat] leaves the
    format radios as they were; so storing an empty selection and loading it
    into a page leaves that page's boxes as they are, and its selection can
    remain non-empty. *)
Theorem applySettings_skips_empty_sizes :
  (forall (p : Page) (format : option string) (ts : Z),
      iconSize (applySettings p {| Settings.selectedSizes := Some [];
                                   Settings.outputFormat := format;
                                   Settings.timestamp := ts |}) = iconSize p /\
      iconSize (applySettings p {| Settings.selectedSizes := None;
                                   Settings.outputFormat := format;
                                   Settings.timestamp := ts |}) = iconSize p) /\
  (forall (p : Page) (sizes : option (list Z)) (ts : Z),
      formatRadios (applySettings p {| Settings.selectedSizes := sizes;
                                       Settings.outputFormat := None;
                                       Settings.timestamp := ts |}) = formatRadios p) /\
  (forall (app : App) (reloaded : Page) (format : option string) (ts : Z),
      let stored := {| Settings.selectedSizes := Some [];
                       Settings.outputFormat := format;
                       Settings.timestamp := ts |} in
      let app' := loadPersistedData (set_page (storeSettings app stored) reloaded) in
      iconSize (page app') = iconSize reloaded /\
      getSelectedSizes (page app') = getSelectedSizes reloaded) /\
  getSelectedSizes
    (page (loadPersistedData
             (storeSettings (appWith (pageWith "AB" standardBoxes))
                {| Settings.selectedSizes := Some [];
                   Settings.outputFormat := Some "png";
                   Settings.timestamp := 0 |})))
  = [16; 72; 192].
Proof.
  assert (Hboxes : forall p format ts,
             iconSize (applySettings p {| Settings.selectedSizes := Some [];
                                          Settings.outputFormat := format;
                                          Settings.timestamp := ts |}) = iconSize p).
  { intros p format ts. unfold applySettings; simpl.
    destruct format as [f |]; [ | reflexivity ].
    destruct (String.eqb f ""); [ reflexivity | ].
    destruct (checkRadio f (formatRadios p)); reflexivity. }
  split; [ | split; [ | split ] ].
  - intros p format ts. split; [ apply Hboxes | ].
    unfold applySettings; simpl.
    destruct format as [f |]; [ | reflexivity ].
    destruct (String.eqb f ""); [ reflexivity | ].
    destruct (checkRadio f (formatRadios p)); reflexivity.
  - intros p sizes ts. unfold applySettings; simpl.
    destruct sizes as [l |]; [ | reflexivity ].
    destruct (0 <? Z.of_nat (length l)); reflexivity.
  - intros app reloaded format ts stored app'.
    assert (Hpage : iconSize (page app') = iconSize reloaded).
    { unfold app', loadPersistedData, storeSettings.
      destruct (db app) as [d |] eqn:Hdb; simpl; [ | rewrite Hdb; reflexivity ].
      rewrite lookup_insert_eq. simpl. apply Hboxes. }
    split; [ exact Hpage | ]. unfold getSelectedSizes. rewrite Hpage. reflexivity.
  - vm_compute. reflexivity.
Qed.




(** ** Input validation *)

Lemma showError_effect app message :
  notifications (showError app message)
  = (notifications app ++ [{| n_message := message; n_type := error |}])%list /\
  currentImage (showError app message) = currentImage app /\
  generatedIcons (showError app message) = generatedIcons app /\
  downloads (showError app message) = downloads app /\
  db (showError app message) = db app /\
  page (showError app message) = page app.
Proof. repeat split. Qed.

(** C5.  When the trimmed text is empty or has more than 3 characters,
    [generateTextIcon] (in either copy) returns with nothing changed but one
    error notification added: no canvas is painted, [currentImage] and
    [generatedIcons] are what they were.  When it has 1 to 3 characters, the
    text canvas is painted and becomes the current image, and the icons are
    generated from it. *)
Theorem generateTextIcon_rejects_bad_text :
  forall (host : Host) (app : App),
    let text := trim (iconText (page app)) in
    ((text = "" \/ (3 < String.length text)%nat) ->
     (exists message,
         FontControls.generateTextIcon host app = showError app message /\
         Script.generateTextIcon host app = showError app message) /\
     (forall app',
         app' = FontControls.generateTextIcon host app \/
         app' = Script.generateTextIcon host app ->
         (exists message,
             notifications app'
             = (notifications app ++ [{| n_message := message; n_type := error |}])%list) /\
         currentImage app' = currentImage app /\
         generatedIcons app' = generatedIcons app)) /\
    ((1 <= String.length text <= 3)%nat ->
     let image := CanvasImage (FontControls.textCanvas host (page app)) in
     let image' := CanvasImage (Script.textCanvas text (textColor (page app))
                                  (bgColor (page app))) in
     FontControls.generateTextIcon host app
     = showSuccess (generateIcons host (set_currentImage app image) image "text")
         "Text icon generated successfully!" /\
     Script.generateTextIcon host app
     = showSuccess (generateIcons host (set_currentImage app image') image' "text")
         "Text icon generated successfully!").
Proof.
  intros host app text. split.
  - intros Hbad.
    assert (Hrej : exists message,
               FontControls.generateTextIcon host app = showError app message /\
               Script.generateTextIcon host app = showError app message).
    { unfold FontControls.generateTextIcon, Script.generateTextIcon. fold text.
      destruct Hbad as [-> | Hlong].
      - exists "Please enter text for the icon". split; reflexivity.
      - destruct (String.eqb text "") eqn:Hempty.
        + apply String.eqb_eq in Hempty. rewrite Hempty in Hlong. simpl in Hlong. lia.
        + assert (Hz : (3 <? Z.of_nat (String.length text)) = true)
            by (apply Z.ltb_lt; lia).
          rewrite Hz. exists "Text must be 3 characters or less". split; reflexivity. }
    split; [ exact Hrej | ].
    destruct Hrej as (message & Hfc & Hsc).
    intros app' [-> | ->]; [ rewrite Hfc | rewrite Hsc ];
      (split; [ exists message; reflexivity | split; reflexivity ]).
  - intros [Hmin Hmax] image image'.
    unfold FontControls.generateTextIcon, Script.generateTextIcon. fold text.
    destruct (String.eqb text "") eqn:Hempty.
    + apply String.eqb_eq in Hempty. rewrite Hempty in Hmin. simpl in Hmin. lia.
    + assert (Hz : (3 <? Z.of_nat (String.length text)) = false)
        by (apply Z.ltb_ge; lia).
      rewrite Hz. split; reflexivity.
Qed.

Lemma generateTextIcon_rejects_bad_text_witness :
  let host := hostWith (linearMeasure 1) true in
  (exists message,
      FontControls.generateTextIcon host (appWith (pageWith " ABCD " standardBoxes))
      = showError (appWith (pageWith " ABCD " standardBoxes)) message) /\
  map Icon.filename
    (generatedIcons (FontControls.generateTextIcon host
                       (appWith (pageWith " AB " standardBoxes))))
  = ["icon-16x16.png"; "icon-72x72.png"; "icon-192x192.png"].
Proof.
  intros host. split.
  - destruct (generateTextIcon_rejects_bad_text host
                (appWith (pageWith " ABCD " standardBoxes))) as (Hrej & _).
    destruct Hrej as ((message & Hfc & _) & _); [ right; vm_compute; lia | ].
    exists message. exact Hfc.
  - destruct (generateTextIcon_rejects_bad_text host
                (appWith (pageWith " AB " standardBoxes))) as (_ & Hacc).
    destruct Hacc as (Hfc & _); [ vm_compute; lia | ].
    rewrite Hfc. vm_compute. reflexivity.
Defined.

Lemma validTypes_In (t : string) :
  existsb (String.eqb t) Script.validTypes = true <-> In t Script.validTypes.
Proof.
  rewrite existsb_exists. split.
  - intros (y & Hy & E). apply String.eqb_eq in E. subst y. exact Hy.
  - intros Ht. exists t. split; [ exact Ht | apply String.eqb_refl ].
Qed.

(** In [script.js] a file is accepted exactly when its type is one of the four
    and its size is at most 10 MB; a rejected file adds an error notification,
    and [processFile] then stops before the emitter. *)
Lemma Script_validateFile_spec (host : Host) (app : App) (file : File.t) :
  (fst (Script.validateFile app file) = true <->
   In (File.type file) ["image/jpeg"; "image/jpg"; "image/png"; "image/bmp"] /\
   File.size file <= 10 * 1024 * 1024) /\
  (fst (Script.validateFile app file) = true -> snd (Script.validateFile app file) = app) /\
  (fst (Script.validateFile app file) = false ->
   exists message,
     snd (Script.validateFile app file) = showError app message /\
     Script.processFile host app file = showError app message).
Proof.
  unfold Script.processFile, Script.validateFile.
  destruct (existsb (String.eqb (File.type file)) Script.validTypes) eqn:Htype; simpl.
  - apply validTypes_In in Htype.
    destruct (Z.ltb_spec Script.maxSize (File.size file)) as [Hbig | Hsmall]; simpl.
    + unfold Script.maxSize in Hbig.
      split; [ split; [ discriminate | intros (_ & Hle); lia ] | ].
      split; [ discriminate | ]. intros _. eexists. split; reflexivity.
    + unfold Script.maxSize in Hsmall.
      split; [ split; [ intros _; split; [ exact Htype | lia ] | reflexivity ] | ].
      split; [ reflexivity | discriminate ].
  - split; [ split; [ discriminate | ] | ].
    + intros (Hin & _). apply validTypes_In in Hin. congruence.
    + split; [ discriminate | ]. intros _. eexists. split; reflexivity.
Qed.

(** The copy with font controls accepts up to 50 MB. *)
Lemma FontControls_validateFile_spec (app : App) (file : File.t) :
  fst (FontControls.validateFile app file) = true <->
  In (File.type file) ["image/jpeg"; "image/jpg"; "image/png"; "image/bmp"] /\
  File.size file <= 50 * 1024 * 1024.
Proof.
  unfold FontControls.validateFile. change FontControls.validTypes with Script.validTypes.
  destruct (existsb (String.eqb (File.type file)) Script.validTypes) eqn:Htype; simpl.
  - apply validTypes_In in Htype.
    destruct (Z.ltb_spec FontControls.maxSize (File.size file)) as [Hbig | Hsmall]; simpl;
      unfold FontControls.maxSize in *.
    + split; [ discriminate | intros (_ & Hle); lia ].
    + split; [ intros _; split; [ exact Htype | lia ] | reflexivity ].
  - split; [ discriminate | ].
    intros (Hin & _). apply validTypes_In in Hin. congruence.
Qed.

(** C6 (the code departs from it).  A PNG file of 20 MB, above the 10 MB the
    error message and [script.js] speak of: [script.js] rejects it with that
    message, while the copy with font controls accepts it without any
    notification and, the file once decoded, hands it to the emitter. *)
Theorem validateFile_accepts_20MB :
  forall app : App,
    let host := hostWith (linearMeasure 1) true in
    let file := pngFile (20 * 1024 * 1024) in
    10 * 1024 * 1024 < File.size file /\
    Script.validateFile app file
    = (false, showError app "File size must be less than 10MB") /\
    Script.processFile host app file
    = showError app "File size must be less than 10MB" /\
    FontControls.validateFile app file = (true, app) /\
    currentImage (FontControls.processFile host app file) = Some (FileImage file) /\
    generatedIcons (FontControls.processFile host app file)
    = generateIconsFrom host (FileImage file) "upload" (getSelectedFormat (page app)) 0
        (getSelectedSizes (page app)) [].
Proof.
  intros app host file.
  split; [ reflexivity | ]. split; [ reflexivity | ]. split; [ reflexivity | ].
  split; [ reflexivity | ].
  unfold FontControls.processFile.
  change (FontControls.validateFile app file) with (true, app). cbv iota beta.
  change (negb true) with false. change (decodes host file) with true. cbv iota.
  unfold storeImageData. simpl. destruct (db app); split; reflexivity.
Qed.

(** ** The archive *)

Section ZipIcons.

Variable host : Host.



(** A failed fetch aborts the loop. *)
Lemma zipIcons_fetch_fails icons (zip : gmap string ZipEntry) :
  Exists (fun icon => fetches host (Icon.dataUrl icon) = false) icons ->
  zipIcons host icons zip = None.
Proof.
  intros Hfail. revert zip.
  induction Hfail as [icon rest Hicon | icon rest Hrest IH]; intros zip; simpl.
  - rewrite Hicon. reflexivity.
  - destruct (fetches host (Icon.dataUrl icon)); [ apply IH | reflexivity ].
Qed.

End ZipIcons.



Lemma generateIcons_namedBySize host app sourceImage type :
  namedBySize (generatedIcons (generateIcons host app sourceImage type)).
Proof.
  rewrite generateIcons_icons. apply generateIconsFrom_Forall. intros j size.
  destruct (makeIcon_fields host sourceImage type (getSelectedFormat (page app)) j size)
    as (-> & -> & _ & ->).
  reflexivity.
Qed.




(** ** File names determine sizes *)

Lemma string_of_uint_no_x (d : Decimal.uint) :
  Forall (fun c => c <> "x"%char) (list_ascii_of_string (NilEmpty.string_of_uint d)).
Proof.
  induction d; simpl; constructor; try exact IHd; discriminate.
Qed.

Lemma numToString_no_x (n : Z) :
  Forall (fun c => c <> "x"%char) (list_ascii_of_string (numToString n)).
Proof.
  unfold numToString, NilZero.string_of_int, NilZero.string_of_uint.
  destruct (Z.to_int n) as [d | d]; destruct d;
    repeat (constructor; try discriminate); apply string_of_uint_no_x.
Qed.

Lemma numToString_inj (a b : Z) : numToString a = numToString b -> a = b.
Proof.
  unfold numToString. intros E.
  assert (Hnn : forall n, Z.to_int n <> Decimal.Pos Decimal.Nil /\
                          Z.to_int n <> Decimal.Neg Decimal.Nil).
  { intros [| p | p]; simpl; split; try discriminate;
      intros [= Hp]; exact (DecimalPos.Unsigned.to_uint_nonnil p Hp). }
  apply DecimalZ.to_int_inj.
  assert (Some (Z.to_int a) = Some (Z.to_int b)) as [= ->]; [ | reflexivity ].
  rewrite <- (NilZero.isi (Z.to_int a)), <- (NilZero.isi (Z.to_int b)), E
    by apply Hnn.
  reflexivity.
Qed.

(** Two strings without "x" that are followed by "x" in equal strings are
    equal. *)
Lemma prefix_before_x (s t r r' : string) :
  Forall (fun c => c <> "x"%char) (list_ascii_of_string s) ->
  Forall (fun c => c <> "x"%char) (list_ascii_of_string t) ->
  s ++ String "x" r = t ++ String "x" r' -> s = t.
Proof.
  revert t. induction s as [| c s IH]; intros [| c' t] Hs Ht E; simpl in *.
  - reflexivity.
  - injection E as <- _. inversion Ht as [| ? ? Hc _]. congruence.
  - injection E as -> _. inversion Hs as [| ? ? Hc _]. congruence.
  - injection E as <- E. inversion Hs; inversion Ht; subst. f_equal. eauto.
Qed.

Lemma iconFilename_inj (a b : Z) (f f' : string) :
  iconFilename a f = iconFilename b f' -> a = b.
Proof.
  unfold iconFilename. simpl. intros [= E].
  apply numToString_inj.
  apply (prefix_before_x _ _ _ _ (numToString_no_x a) (numToString_no_x b) E).
Qed.

(** Icons named by [generateIcons] with pairwise distinct sizes have pairwise
    distinct file names. *)
Lemma namedBySize_NoDup (icons : list Icon.t) :
  namedBySize icons -> NoDup (map Icon.size icons) -> NoDup (map Icon.filename icons).
Proof.
  unfold namedBySize. induction icons as [| icon rest IH]; simpl; intros Hnamed Hnodup.
  - apply NoDup_nil_2.
  - apply Forall_cons in Hnamed. destruct Hnamed as (Hicon & Hrest).
    apply NoDup_cons in Hnodup. destruct Hnodup as (Hfresh & Hnodup).
    apply NoDup_cons_2; [ | apply (IH Hrest Hnodup) ].
    intros Hin. apply Hfresh.
    apply list_elem_of_fmap in Hin. destruct Hin as (other & Hname & Hother).
    apply list_elem_of_fmap. exists other. split; [ | exact Hother ].
    rewrite Forall_forall in Hrest. rewrite Hicon, (Hrest other Hother) in Hname.
    apply (iconFilename_inj _ _ _ _ Hname).
Qed.






(** * Further properties *)

(** ** The font search under a monotone fit test *)

Section FitMonotone.

Variable measureText : MeasureText.
Variables (text : string) (maxW maxH : Q) (style : string) (weight : Z) (family : string).

Let fits : Z -> bool := fitsAt measureText text maxW maxH style weight family.
Let step : FitState -> FitState := fitStep measureText text maxW maxH style weight family.
Let loop : nat -> FitState -> FitState := fitLoop measureText text maxW maxH style weight family.

Hypothesis fits_down : forall a b, 12 <= a <= b -> b <= 420 -> fits b = true -> fits a = true.

Lemma halving_bound (k : nat) : 0 <= 409 / 2 ^ Z.of_nat (S k) /\
  409 / 2 ^ Z.of_nat (S k) = (409 / 2 ^ Z.of_nat k) / 2.
Proof.
  rewrite Nat2Z.inj_succ, Z.pow_succ_r by lia.
  assert (0 < 2 ^ Z.of_nat k) by (apply Z.pow_pos_nonneg; lia).
  split.
  - apply Z.div_pos; lia.
  - rewrite (Z.mul_comm 2), Z.div_div by lia. reflexivity.
Qed.

Lemma fitStep_mono_inv k st : fitMonoInv fits k st -> fitMonoInv fits (S k) (step st).
Proof.
  intros (Hwidth & Habove & Hinv).
  pose proof (fitStep_inv measureText text maxW maxH style weight family st Hinv) as Hinv'.
  destruct Hinv as (Hlo & Hhi & Hcross & _).
  destruct (halving_bound k) as (Hpos & Hhalf).
  set (mid := (lo st + hi st) / 2).
  assert (Hmid : 2 * mid <= lo st + hi st <= 2 * mid + 1).
  { pose proof (Z.div_mod (lo st + hi st) 2 ltac:(lia)) as Hdm.
    pose proof (Z.mod_pos_bound (lo st + hi st) 2 ltac:(lia)) as Hmb.
    fold mid in Hdm. lia. }
  assert (Hdiv : 2 * (409 / 2 ^ Z.of_nat (S k)) <= 409 / 2 ^ Z.of_nat k
                 <= 2 * (409 / 2 ^ Z.of_nat (S k)) + 1).
  { rewrite Hhalf.
    pose proof (Z.div_mod (409 / 2 ^ Z.of_nat k) 2 ltac:(lia)).
    pose proof (Z.mod_pos_bound (409 / 2 ^ Z.of_nat k) 2 ltac:(lia)). lia. }
  split; [ | split; [ | exact Hinv' ] ].
  - destruct (fits mid) eqn:Hfit.
    + destruct (fitStep_fit measureText text maxW maxH style weight family st Hfit)
        as (E1 & E2 & _). fold step in E1, E2. fold mid in E1. rewrite E1, E2. lia.
    + destruct (fitStep_no_fit measureText text maxW maxH style weight family st Hfit)
        as (E1 & E2 & _). fold step in E1, E2. fold mid in E2. rewrite E1, E2. lia.
  - intros s Hs Hs12. destruct (fits mid) eqn:Hfit.
    + destruct (fitStep_fit measureText text maxW maxH style weight family st Hfit)
        as (_ & E2 & _). fold step in E2. rewrite E2 in Hs. apply Habove; assumption.
    + destruct (fitStep_no_fit measureText text maxW maxH style weight family st Hfit)
        as (_ & E2 & _). fold step in E2. fold mid in E2. rewrite E2 in Hs.
      destruct (Z_lt_le_dec (hi st) s) as [Hgt | Hle]; [ apply Habove; lia | ].
      destruct (fits s) eqn:Hfs; [ | reflexivity ].
      assert (Hm12 : 12 <= mid) by lia.
      rewrite (fits_down mid s) in Hfit; [ discriminate | lia | lia | exact Hfs ].
Qed.

Lemma fitLoop_mono_inv n k st :
  fitMonoInv fits k st -> fitMonoInv fits (n + k) (loop n st).
Proof.
  revert k st. induction n as [| n IH]; intros k st Hst; simpl; [ exact Hst | ].
  replace (S (n + k)) with (n + S k)%nat by lia.
  apply IH, fitStep_mono_inv, Hst.
Qed.

Lemma fitInit_mono_inv : fitMonoInv fits 0 fitInit.
Proof.
  split; [ | split ].
  - apply Z.leb_le. reflexivity.
  - simpl. intros s Hs. lia.
  - apply fitInit_inv.
Qed.

Lemma fitFinal_mono :
  fits 12 = true ->
  let final := fitFinal measureText text maxW maxH style weight family in
  12 <= best final <= 420 /\ fits (best final) = true /\
  forall s, best final < s <= 420 -> fits s = false.
Proof.
  intros H12 final.
  pose proof (fitLoop_mono_inv 14 0 fitInit fitInit_mono_inv) as (Hwidth & Habove & Hinv).
  change (loop 14 fitInit) with final in Hwidth, Habove, Hinv.
  change (409 / 2 ^ Z.of_nat (14 + 0)) with 0 in Hwidth.
  destruct Hinv as (Hlo & _ & _ & _ & Hrange & Hbest).
  assert (Hhi11 : lo final = 12 -> False).
  { intros E. rewrite (Habove 12) in H12; [ discriminate | lia | lia ]. }
  destruct Hbest as [(_ & E & _) | (Hfb & Hin & Hlb & _)]; [ destruct (Hhi11 E) | ].
  specialize (Hrange _ Hin).
  assert (best final <> 11) by (intros E; apply Hhi11; lia).
  split; [ lia | ]. split; [ exact Hfb | ].
  intros s Hs. apply Habove; lia.
Qed.

End FitMonotone.

(** X1.  When fitting is monotone (a text that fits at a size fits at every
    smaller size from 12 on) and the text fits at 12, [fitTextToCanvas]
    returns the largest size in [12..420] at which the text fits: the result
    fits and no larger size up to 420 does. *)
Theorem fitTextToCanvas_maximal_when_monotone :
  forall (measureText : MeasureText) (text : string) (maxW maxH : Q)
         (style : string) (weight : Z) (family : string),
    let fits := fitsAt measureText text maxW maxH style weight family in
    let result := fitTextToCanvas measureText text maxW maxH style weight family in
    (forall a b, 12 <= a <= b -> b <= 420 -> fits b = true -> fits a = true) ->
    fits 12 = true ->
    12 <= result <= 420 /\
    fits result = true /\
    (forall s, result < s <= 420 -> fits s = false) /\
    (forall s, 12 <= s <= 420 -> (fits s = true <-> s <= result)).
Proof.
  intros measureText text maxW maxH style weight family fits result Hdown H12.
  destruct (fitFinal_mono measureText text maxW maxH style weight family Hdown H12)
    as (Hrange & Hfit & Habove).
  subst result fits. unfold fitTextToCanvas. cbv zeta in Hrange, Hfit, Habove.
  split; [ exact Hrange | ]. split; [ exact Hfit | ]. split; [ exact Habove | ].
  intros s Hs. split.
  - intros Hfs.
    destruct (Z_lt_le_dec (best (fitFinal measureText text maxW maxH style weight family)) s)
      as [Hgt | Hle]; [ | exact Hle ].
    rewrite (Habove s) in Hfs; [ discriminate | lia ].
  - intros Hle.
    apply (Hdown s (best (fitFinal measureText text maxW maxH style weight family)));
      [ lia | lia | exact Hfit ].
Qed.

Lemma fitTextToCanvas_maximal_when_monotone_witness :
  fitTextToCanvas (linearMeasure 2) "AB" (inject_Z 416) (inject_Z 416)
    "normal" 700 "Arial" = 208 /\
  (forall s, 208 < s <= 420 ->
             fitsAt (linearMeasure 2) "AB" (inject_Z 416) (inject_Z 416)
               "normal" 700 "Arial" s = false).
Proof.
  destruct (fitTextToCanvas_maximal_when_monotone
              (linearMeasure 2) "AB" (inject_Z 416) (inject_Z 416) "normal" 700 "Arial")
    as (_ & _ & Habove & _).
  - intros a b Hab Hb. rewrite !linearMeasure_fits, !andb_true_iff, !Z.leb_le. lia.
  - vm_compute. reflexivity.
  - split; [ vm_compute; reflexivity | ].
    intros s Hs. apply Habove.
    replace (fitTextToCanvas (linearMeasure 2) "AB" (inject_Z 416) (inject_Z 416)
               "normal" 700 "Arial") with 208 by (vm_compute; reflexivity).
    exact Hs.
Defined.

(** ** Numbers written and read back *)

Lemma takeWhile_digits (d : Decimal.uint) :
  takeWhile isDecimalDigit (NilEmpty.string_of_uint d) = NilEmpty.string_of_uint d.
Proof. induction d; simpl; try rewrite IHd; reflexivity. Qed.

Lemma parseDecimal_digits (d : Decimal.uint) :
  d <> Decimal.Nil ->
  parseDecimal (NilEmpty.string_of_uint d) = Some (Z.of_uint d).
Proof.
  intros Hd. unfold parseDecimal. rewrite takeWhile_digits.
  pose proof (NilEmpty.usu d) as Husu.
  destruct d; [ congruence | .. ];
    cbn [NilEmpty.string_of_uint] in *; cbv iota; rewrite Husu; reflexivity.
Qed.

Lemma parseInt_digits (d : Decimal.uint) :
  d <> Decimal.Nil ->
  parseInt (NilEmpty.string_of_uint d) = Some (Z.of_uint d) /\
  parseInt (String "-" (NilEmpty.string_of_uint d)) = Some (- Z.of_uint d).
Proof.
  intros Hd. pose proof (parseDecimal_digits d Hd) as Hp.
  destruct d as [| d | d | d | d | d | d | d | d | d | d ]; try congruence;
    try (unfold parseInt; cbn [NilEmpty.string_of_uint] in *;
         simpl trimStart; cbv iota beta; rewrite Hp; split; reflexivity).
  destruct d;
    unfold parseInt; cbn [NilEmpty.string_of_uint] in *;
    simpl trimStart; cbv iota beta; rewrite Hp; split; reflexivity.
Qed.

Lemma string_of_uint_nonnil (d : Decimal.uint) :
  d <> Decimal.Nil -> NilZero.string_of_uint d = NilEmpty.string_of_uint d.
Proof. destruct d; [ congruence | .. ]; reflexivity. Qed.

(** [parseInt] reads back every integer that [numToString] writes. *)
Lemma parseInt_numToString (n : Z) : parseInt (numToString n) = Some n.
Proof.
  unfold numToString.
  destruct n as [| p | p]; [ reflexivity | | ];
    simpl Z.to_int; unfold NilZero.string_of_int;
    pose proof (DecimalPos.Unsigned.to_uint_nonnil p) as Hnn;
    destruct (parseInt_digits (Pos.to_uint p) Hnn) as (Hpos & Hneg);
    rewrite (string_of_uint_nonnil _ Hnn);
    [ rewrite Hpos | rewrite Hneg ];
    unfold Z.of_uint; rewrite DecimalPos.Unsigned.of_to; reflexivity.
Qed.

Lemma nth_error_lookup {A : Type} (l : list A) (i : nat) : nth_error l i = l !! i.
Proof. revert i. induction l as [| x l IH]; intros [| i]; simpl; auto. Qed.

(** ** The archive when a fetch fails *)

(** X2.  With at least one generated icon and JSZip loaded, if the fetch of
    any icon's data fails, [downloadAllIcons] offers no archive: its only
    effect is the error notification about the ZIP file. *)
Theorem downloadAllIcons_fetch_failure :
  forall (host : Host) (app : App),
    generatedIcons app <> [] ->
    JSZip host = true ->
    Exists (fun icon => fetches host (Icon.dataUrl icon) = false) (generatedIcons app) ->
    downloadAllIcons host app
    = showError app "Failed to create ZIP file. Please try downloading individual icons." /\
    downloads (downloadAllIcons host app) = downloads app.
Proof.
  intros host app Hne Hzip Hfail.
  assert (E : downloadAllIcons host app
              = showError app
                  "Failed to create ZIP file. Please try downloading individual icons.").
  { unfold downloadAllIcons.
    destruct (generatedIcons app) as [| icon rest] eqn:Hicons; [ congruence | ].
    change (Z.of_nat (length (icon :: rest)) =? 0) with false. cbv iota.
    rewrite Hzip. simpl negb. cbv iota.
    rewrite (zipIcons_fetch_fails host (icon :: rest) ∅ Hfail). reflexivity. }
  split; [ exact E | rewrite E; reflexivity ].
Qed.

Lemma downloadAllIcons_fetch_failure_witness :
  let app := generateIcons brokenHost (appWith (pageWith "AB" standardBoxes))
               (FileImage (pngFile 2048)) "upload" in
  downloads (downloadAllIcons brokenHost app) = [].
Proof.
  intros app.
  destruct (downloadAllIcons_fetch_failure brokenHost app) as (_ & Hd).
  - vm_compute. discriminate.
  - reflexivity.
  - vm_compute. apply Exists_cons_hd. reflexivity.
  - exact Hd.
Defined.

(** ** File names within one run *)

Lemma generateIconsFrom_names host sourceImage type format i sizes :
  map Icon.filename (generateIconsFrom host sourceImage type format i sizes [])
  = map (fun size => iconFilename size format) sizes.
Proof.
  revert i. induction sizes as [| size rest IH]; intros i; [ reflexivity | ].
  rewrite generateIconsFrom_cons. simpl. rewrite IH.
  destruct (makeIcon_fields host sourceImage type format i size) as (_ & _ & _ & ->).
  reflexivity.
Qed.

(** X3.  In the list one run of [generateIcons] produces, the file names are
    pairwise distinct exactly when the selected sizes are. *)
Theorem generateIcons_names_distinct_iff :
  forall (host : Host) (app : App) (sourceImage : Image) (type : string),
    NoDup (map Icon.filename (generatedIcons (generateIcons host app sourceImage type)))
    <-> NoDup (getSelectedSizes (page app)).
Proof.
  intros host app sourceImage type. split.
  - rewrite generateIcons_icons, generateIconsFrom_names. apply NoDup_fmap_1.
  - intros Hnodup. apply namedBySize_NoDup; [ apply generateIcons_namedBySize | ].
    destruct (generateIcons_length_sizes host app sourceImage type) as (_ & ->).
    exact Hnodup.
Qed.


(** ** Processing an uploaded file *)




(** ** Saving settings *)

(** X6.  Without a database [updateSettings] still announces "Settings
    saved", and that notification is its only effect: nothing is stored, and a
    later [loadPersistedData] leaves whatever page it runs on as it is. *)
Theorem updateSettings_without_database :
  forall (host : Host) (app : App),
    db app = None ->
    updateSettings host app = showFeedback app "Settings saved" /\
    forall reloaded : Page,
      loadPersistedData (set_page (updateSettings host app) reloaded)
      = set_page (updateSettings host app) reloaded.
Proof.
  intros host app Hdb.
  assert (E : updateSettings host app = showFeedback app "Settings saved").
  { unfold updateSettings, storeSettings. rewrite Hdb. reflexivity. }
  split; [ exact E | ].
  intros reloaded. rewrite E. unfold loadPersistedData. simpl. rewrite Hdb. reflexivity.
Qed.

Lemma updateSettings_without_database_witness :
  notifications (updateSettings (hostWith (linearMeasure 1) true)
                   (appWithout (pageWith "AB" standardBoxes)))
  = [{| n_message := "Settings saved"; n_type := info |}].
Proof.
  destruct (updateSettings_without_database (hostWith (linearMeasure 1) true)
              (appWithout (pageWith "AB" standardBoxes))) as (E & _).
  - reflexivity.
  - rewrite E. reflexivity.
Defined.






(** ** Previews and single downloads *)

Lemma iconAt_index (app : App) (i : nat) :
  iconAt app (parseInt (numToString (Z.of_nat i))) = generatedIcons app !! i.
Proof.
  rewrite parseInt_numToString. unfold iconAt.
  destruct (Z.ltb_spec (Z.of_nat i) 0) as [Hneg | _]; [ lia | ].
  rewrite Nat2Z.id. apply nth_error_lookup.
Qed.

(** X8.  Every item of the preview grid downloads its own icon: the item at
    position [i] shows the [i]-th generated icon, and a click on its button
    offers that icon's data under that icon's file name with a success
    notification, or, when the fetch fails, offers nothing and shows "Download
    failed".  [downloadSingle] with an index that is NaN, negative or not
    below the number of icons does nothing at all. *)
Theorem preview_button_downloads_its_icon :
  forall (host : Host) (app : App),
    length (showPreview app) = length (generatedIcons app) /\
    (forall (i : nat) (item : PreviewItem),
        showPreview app !! i = Some item ->
        generatedIcons app !! i = Some (pv_icon item) /\
        clickDownloadSingle host app item
        = if fetches host (Icon.dataUrl (pv_icon item))
          then (showSuccess app ("Downloaded " ++ Icon.filename (pv_icon item)),
                Some (Icon.filename (pv_icon item), Icon.dataUrl (pv_icon item)))
          else (showError app "Download failed", None)) /\
    (forall index : option Z,
        match index with
        | Some i => i < 0 \/ Z.of_nat (length (generatedIcons app)) <= i
        | None => True
        end ->
        downloadSingle host app index = (app, None)).
Proof.
  intros host app. split; [ apply length_imap | ]. split.
  - intros i item Hitem. unfold showPreview in Hitem.
    rewrite list_lookup_imap in Hitem.
    destruct (generatedIcons app !! i) as [icon |] eqn:Hicon; [ | discriminate ].
    injection Hitem as <-. simpl pv_icon. split; [ reflexivity | ].
    unfold clickDownloadSingle, downloadSingle. simpl pv_index.
    rewrite iconAt_index, Hicon. reflexivity.
  - intros index Hout. unfold downloadSingle, iconAt.
    destruct index as [i |]; [ | reflexivity ].
    destruct (Z.ltb_spec i 0) as [_ | Hnn]; [ reflexivity | ].
    destruct Hout as [Hneg | Hbig]; [ lia | ].
    destruct (nth_error (generatedIcons app) (Z.to_nat i)) eqn:Hnth; [ | reflexivity ].
    assert (Some t <> None) as Hsome by discriminate. rewrite <- Hnth in Hsome.
    apply nth_error_Some in Hsome. lia.
Qed.

Lemma preview_button_downloads_its_icon_witness :
  let host := hostWith (linearMeasure 1) true in
  let app := generateIcons host (appWith (pageWith "AB" standardBoxes))
               (FileImage (pngFile 2048)) "upload" in
  (exists item,
      showPreview app !! 1%nat = Some item /\
      option_map fst (snd (clickDownloadSingle host app item)) = Some "icon-72x72.png") /\
  downloadSingle host app (Some 3) = (app, None).
Proof.
  intros host app.
  destruct (preview_button_downloads_its_icon host app) as (_ & Hclick & Hout).
  split.
  - eexists. split; [ reflexivity | ].
    destruct (Hclick 1%nat _ eq_refl) as (_ & ->). vm_compute. reflexivity.
  - apply (Hout (Some 3)). right. vm_compute. discriminate.
Defined.

(** ** The web-app manifest at its edges *)

(** X9.  When every generated icon is smaller than 72, [generatePWAManifest]
    still offers a manifest and reports success; its [icons] array is empty. *)
Theorem generatePWAManifest_small_icons_only :
  forall app : App,
    generatedIcons app <> [] ->
    Forall (fun icon => Icon.size icon < 72) (generatedIcons app) ->
    exists manifest,
      downloads (generatePWAManifest app)
      = (downloads app ++ [DownloadManifest "manifest.json" manifest])%list /\
      icons manifest = [] /\
      notifications (generatePWAManifest app)
      = (notifications app
         ++ [{| n_message := "PWA manifest.json generated and downloaded!";
                n_type := success |}])%list.
Proof.
  intros app Hne Hsmall. exists (pwaManifest app).
  assert (Hicons : icons (pwaManifest app) = []).
  { unfold pwaManifest; simpl. clear Hne.
    induction Hsmall as [| icon rest Hicon _ IH]; [ reflexivity | ]. simpl.
    destruct (Z.leb_spec 72 (Icon.size icon)); [ lia | exact IH ]. }
  unfold generatePWAManifest.
  destruct (generatedIcons app) as [| icon rest] eqn:Hlist; [ congruence | ].
  change (Z.of_nat (length (icon :: rest)) =? 0) with false. cbv iota.
  split; [ reflexivity | ]. split; [ exact Hicons | reflexivity ].
Qed.

Lemma generatePWAManifest_small_icons_only_witness :
  let host := hostWith (linearMeasure 1) true in
  let app := generateIcons host (appWith (pageWith "AB" [box 16 true; box 32 true]))
               (FileImage (pngFile 2048)) "upload" in
  exists manifest,
    downloads (generatePWAManifest app) = [DownloadManifest "manifest.json" manifest] /\
    icons manifest = [].
Proof.
  intros host app.
  destruct (generatePWAManifest_small_icons_only app) as (manifest & Hd & Hicons & _).
  - vm_compute. discriminate.
  - vm_compute. repeat constructor.
  - exists manifest. split; [ exact Hd | exact Hicons ].
Defined.



(** ** Tabs *)

Lemma activateContent_ids id contents :
  map content_id (activateContent id contents) = map content_id contents.
Proof.
  induction contents as [| c rest IH]; simpl; [ reflexivity | ].
  destruct (String.eqb (content_id c) id); simpl; [ reflexivity | rewrite IH; reflexivity ].
Qed.

(** On contents that are all inactive, only one element becomes active, and
    it has the id asked for. *)
Lemma activateContent_inactive id contents :
  Forall (fun c => content_active c = false) contents ->
  (forall c, In c (activateContent id contents) -> content_active c = true ->
             content_id c = id) /\
  (length (List.filter content_active (activateContent id contents)) <= 1)%nat /\
  (In id (map content_id contents) ->
   length (List.filter content_active (activateContent id contents)) = 1%nat).
Proof.
  intros Hall. induction Hall as [| c rest Hc Hrest IH]; simpl.
  - split; [ intros c [] | ]. split; [ lia | intros [] ].
  - assert (Hnone : List.filter content_active rest = []).
    { clear -Hrest. induction Hrest as [| x l Hx _ IH]; simpl; [ reflexivity | ].
      rewrite Hx. exact IH. }
    destruct IH as (IHid & IHle & IHone).
    destruct (String.eqb_spec (content_id c) id) as [E | Hne]; simpl.
    + rewrite Hnone. split; [ | split; [ simpl; lia | reflexivity ] ].
      intros c' [<- | Hin] Hactive; [ exact E | ].
      rewrite Forall_forall in Hrest. apply list_elem_of_In in Hin.
      rewrite (Hrest c' Hin) in Hactive. discriminate.
    + rewrite Hc. split; [ | split; [ exact IHle | ] ].
      * intros c' [<- | Hin] Hactive; [ congruence | apply (IHid c' Hin Hactive) ].
      * intros [E | Hin]; [ congruence | apply (IHone Hin) ].
Qed.

(** X11.  After [switchTab] on one of the tab buttons, that button and no
    other is active; the tab contents keep their ids, at most one of them is
    active, an active one has the id [data-tab + "-tab"] of the clicked
    button, and one is active whenever a content with that id exists.  The
    application state is not touched. *)
Theorem switchTab_one_active :
  forall (ui : Ui) (clicked : nat) (btn : TabButton),
    nth_error (tabButtons ui) clicked = Some btn ->
    let ui' := switchTab ui clicked in
    (forall i b, tabButtons ui' !! i = Some b -> (btn_active b = true <-> i = clicked)) /\
    map data_tab (tabButtons ui') = map data_tab (tabButtons ui) /\
    map content_id (tabContents ui') = map content_id (tabContents ui) /\
    (forall c, In c (tabContents ui') -> content_active c = true ->
               content_id c = data_tab btn ++ "-tab") /\
    (length (List.filter content_active (tabContents ui')) <= 1)%nat /\
    (In (data_tab btn ++ "-tab") (map content_id (tabContents ui)) ->
     length (List.filter content_active (tabContents ui')) = 1%nat) /\
    ui_app ui' = ui_app ui.
Proof.
  intros ui clicked btn Hbtn ui'. unfold ui', switchTab. rewrite Hbtn. simpl.
  set (contents := map (fun content => {| content_id := content_id content;
                                          content_active := false |}) (tabContents ui)).
  assert (Hall : Forall (fun c => content_active c = false) contents).
  { apply Forall_forall. intros c Hc. apply list_elem_of_In, in_map_iff in Hc.
    destruct Hc as (c0 & <- & _). reflexivity. }
  assert (Hids : map content_id contents = map content_id (tabContents ui)).
  { unfold contents. rewrite map_map. reflexivity. }
  destruct (activateContent_inactive (data_tab btn ++ "-tab") contents Hall)
    as (Hid & Hle & Hone).
  split; [ | split; [ | split; [ | split; [ exact Hid | split; [ exact Hle | split ] ] ] ] ].
  - intros i b Hb. rewrite list_lookup_imap in Hb.
    destruct (tabButtons ui !! i) as [b0 |]; [ | discriminate ].
    injection Hb as <-. simpl. apply Nat.eqb_eq.
  - clear. generalize (Nat.eqb_spec). intros _.
    assert (Hgen : forall (f : nat -> nat) l,
               map data_tab (imap (fun i btn0 => {| data_tab := data_tab btn0;
                                                     btn_active := Nat.eqb (f i) clicked |}) l)
               = map data_tab l).
    { intros f l. revert f. induction l as [| x l IH]; intros f; simpl; [ reflexivity | ].
      f_equal. apply (IH (fun i => f (S i))). }
    apply (Hgen (fun i => i)).
  - rewrite activateContent_ids. exact Hids.
  - rewrite <- Hids. exact Hone.
  - reflexivity.
Qed.

Lemma switchTab_one_active_witness :
  let ui' := switchTab (uiWith (appWith (pageWith "AB" standardBoxes)) None) 1 in
  map btn_active (tabButtons ui') = [false; true] /\
  map content_active (tabContents ui') = [false; true] /\
  length (List.filter content_active (tabContents ui')) = 1%nat.
Proof.
  intros ui'.
  destruct (switchTab_one_active (uiWith (appWith (pageWith "AB" standardBoxes)) None) 1
              {| data_tab := "text"; btn_active := false |} eq_refl)
    as (_ & _ & _ & _ & _ & Hone & _).
  split; [ reflexivity | ]. split; [ reflexivity | ].
  apply Hone. simpl. auto.
Defined.

(** ** The install prompt *)

Lemma installPWA_without_prompt ui :
  deferredPrompt ui = None ->
  deferredPrompt (installPWA ui) = None /\
  promptsShown (installPWA ui) = promptsShown ui /\
  isInstallable (installPWA ui) = isInstallable ui.
Proof.
  intros Hnone. unfold installPWA. rewrite Hnone.
  unfold showInstallInstructions. destruct (installInstructions ui); simpl; auto.
Qed.

Lemma installPWA_iter_without_prompt n ui :
  deferredPrompt ui = None ->
  deferredPrompt (Nat.iter n installPWA ui) = None /\
  promptsShown (Nat.iter n installPWA ui) = promptsShown ui.
Proof.
  intros Hnone. induction n as [| n (IHp & IHs)]; simpl; [ auto | ].
  destruct (installPWA_without_prompt _ IHp) as (Hp & Hs & _).
  split; [ exact Hp | rewrite Hs; exact IHs ].
Qed.

(** X12.  A saved install prompt is used once: when [installPWA] runs with a
    saved prompt that does not fail, it calls [prompt()] once, reports the
    user's choice, forgets the prompt and clears [isInstallable]; however
    often [installPWA] runs after that, it never prompts again, and the next
    run only shows the manual instructions with an info notification.  When
    [prompt()] fails, the prompt is kept and an error is shown. *)
Theorem installPWA_prompts_once :
  forall (ui : Ui) (outcome : PromptOutcome),
    deferredPrompt ui = Some outcome ->
    let ui1 := installPWA ui in
    promptsShown ui1 = S (promptsShown ui) /\
    (outcome = PromptFails ->
     deferredPrompt ui1 = Some PromptFails /\
     isInstallable ui1 = isInstallable ui /\
     ui_app ui1 = showError (ui_app ui)
                    "Installation failed. Try using your browser's install option.") /\
    (outcome <> PromptFails ->
     deferredPrompt ui1 = None /\
     isInstallable ui1 = false /\
     ui_app ui1
     = (if match outcome with Accepted => true | _ => false end
        then showSuccess (ui_app ui) "Installing IconForge..."
        else showFeedback (ui_app ui) "Installation cancelled") /\
     (forall n, promptsShown (Nat.iter n installPWA ui1) = promptsShown ui1) /\
     ui_app (installPWA ui1)
     = showFeedback (ui_app ui1)
         ("Use your browser's install option or " ++ doubleQuote
            ++ "Add to Home Screen" ++ doubleQuote) /\
     (installInstructions ui <> None -> installInstructions (installPWA ui1) = Some "block")).
Proof.
  intros ui outcome Hprompt ui1.
  assert (Hcount : promptsShown ui1 = S (promptsShown ui)).
  { unfold ui1, installPWA. rewrite Hprompt. destruct outcome; reflexivity. }
  split; [ exact Hcount | ]. split.
  - intros ->. unfold ui1, installPWA. rewrite Hprompt. auto.
  - intros Hok.
    assert (Hnone : deferredPrompt ui1 = None).
    { unfold ui1, installPWA. rewrite Hprompt. destruct outcome; [ | | congruence ]; reflexivity. }
    assert (Hinstr : installInstructions ui1 = installInstructions ui).
    { unfold ui1, installPWA. rewrite Hprompt. destruct outcome; reflexivity. }
    split; [ exact Hnone | ].
    split; [ unfold ui1, installPWA; rewrite Hprompt;
             destruct outcome; [ | | congruence ]; reflexivity | ].
    split; [ unfold ui1, installPWA; rewrite Hprompt;
             destruct outcome; [ | | congruence ]; reflexivity | ].
    split; [ intros n; apply (installPWA_iter_without_prompt n ui1 Hnone) | ].
    assert (Hnext : installPWA ui1
                    = set_ui_app (showInstallInstructions ui1)
                        (showFeedback (ui_app (showInstallInstructions ui1))
                           ("Use your browser's install option or " ++ doubleQuote
                              ++ "Add to Home Screen" ++ doubleQuote)))
      by (unfold installPWA at 1; rewrite Hnone; reflexivity).
    rewrite Hnext. unfold showInstallInstructions. rewrite Hinstr.
    destruct (installInstructions ui); simpl; split; try reflexivity; congruence.
Qed.

Lemma installPWA_prompts_once_witness :
  let ui := onBeforeInstallPrompt (uiWith (appWith (pageWith "AB" standardBoxes)) None)
              Dismissed in
  promptsShown (installPWA (installPWA (installPWA ui))) = 1%nat /\
  installInstructions (installPWA (installPWA ui)) = Some "block".
Proof.
  intros ui.
  destruct (installPWA_prompts_once ui Dismissed eq_refl) as (Hcount & _ & Honce).
  destruct Honce as (_ & _ & _ & Hiter & _ & Hshown); [ discriminate | ].
  split.
  - exact (eq_trans (Hiter 2%nat) Hcount).
  - apply Hshown. discriminate.
Defined.

(** ** Keyboard shortcuts *)





(** ** Access control *)

Section AccessControlProperties.

Import AccessControl.

(** The verdict depends on [sessionStorage] only through [hubReferrer]. *)
Lemma isAccessAllowed_verdict visit (storage storage' : gmap string string) :
  storage' !! "hubReferrer" = storage !! "hubReferrer" ->
  fst (isAccessAllowed visit storage') = fst (isAccessAllowed visit storage).
Proof.
  intros Hhub. unfold isAccessAllowed. rewrite Hhub.
  destruct (existsb (String.eqb (location_origin visit)) ALLOWED_ORIGINS); [ reflexivity | ].
  destruct (negb (String.eqb (referrer visit) "")
            && existsb (fun origin => includes (referrer visit) origin) ALLOWED_ORIGINS);
    [ reflexivity | ].
  destruct (storage !! "hubReferrer") as [v |]; [ | reflexivity ].
  destruct (String.eqb v "statelessplatform.com"); reflexivity.
Qed.

Lemma isAccessAllowed_denied visit (storage : gmap string string) :
  fst (isAccessAllowed visit storage) = false ->
  isAccessAllowed visit storage = (false, storage).
Proof.
  unfold isAccessAllowed.
  destruct (existsb (String.eqb (location_origin visit)) ALLOWED_ORIGINS); [ discriminate | ].
  destruct (negb (String.eqb (referrer visit) "")
            && existsb (fun origin => includes (referrer visit) origin) ALLOWED_ORIGINS);
    [ discriminate | ].
  destruct (storage !! "hubReferrer") as [v |]; [ | reflexivity ].
  destruct (String.eqb v "statelessplatform.com"); [ discriminate | reflexivity ].
Qed.

Lemma isAccessAllowed_allowed visit (storage : gmap string string) :
  fst (isAccessAllowed visit storage) = true ->
  enforceHubAccess visit storage = (delete "redirectAttempts" storage, None).
Proof.
  unfold enforceHubAccess, isAccessAllowed.
  destruct (existsb (String.eqb (location_origin visit)) ALLOWED_ORIGINS); [ reflexivity | ].
  destruct (negb (String.eqb (referrer visit) "")
            && existsb (fun origin => includes (referrer visit) origin) ALLOWED_ORIGINS).
  { intros _. simpl. rewrite delete_delete_eq. reflexivity. }
  destruct (storage !! "hubReferrer") as [v |]; [ | discriminate ].
  destruct (String.eqb v "statelessplatform.com"); [ | discriminate ].
  intros _. simpl. rewrite delete_delete_eq. reflexivity.
Qed.

Lemma numToString_not_empty (n : Z) : numToString n <> "".
Proof.
  intros E. pose proof (parseInt_numToString n) as Hp. rewrite E in Hp. discriminate.
Qed.

Lemma getRedirectAttempts_incremented (storage : gmap string string) (n : Z) :
  getRedirectAttempts storage = Some n ->
  getRedirectAttempts (incrementRedirectAttempts storage) = Some (n + 1).
Proof.
  intros Hn. unfold incrementRedirectAttempts. rewrite Hn. simpl.
  unfold getRedirectAttempts. rewrite lookup_insert_eq. unfold or_default.
  destruct (String.eqb_spec (numToString (n + 1)) "") as [E | _].
  - destruct (numToString_not_empty _ E).
  - apply parseInt_numToString.
Qed.

Lemma getRedirectAttempts_NaN (storage : gmap string string) :
  getRedirectAttempts storage = None ->
  getRedirectAttempts (incrementRedirectAttempts storage) = None.
Proof.
  intros Hn. unfold incrementRedirectAttempts. rewrite Hn. simpl.
  unfold getRedirectAttempts. rewrite lookup_insert_eq. reflexivity.
Qed.

Lemma incrementRedirectAttempts_hub (storage : gmap string string) :
  incrementRedirectAttempts storage !! "hubReferrer" = storage !! "hubReferrer".
Proof. unfold incrementRedirectAttempts. apply lookup_insert_ne. discriminate. Qed.

(** Denied loads with a counter that reads [n]. *)
Lemma pageLoads_counting visits :
  forall (storage : gmap string string) (n : Z),
    getRedirectAttempts storage = Some n ->
    Forall (fun visit => fst (isAccessAllowed visit storage) = false) visits ->
    fst (pageLoads visits storage)
    = (repeat (Some HUB_URL) (Nat.min (length visits) (Z.to_nat (2 - n)))
       ++ repeat None (length visits - Z.to_nat (2 - n)))%list.
Proof.
  induction visits as [| visit rest IH]; intros storage n Hn Hdenied; [ reflexivity | ].
  apply Forall_cons in Hdenied. destruct Hdenied as (Hvisit & Hrest).
  simpl pageLoads. unfold enforceHubAccess.
  rewrite (isAccessAllowed_denied visit storage Hvisit). simpl negb. cbv iota.
  rewrite Hn. unfold MAX_REDIRECT_ATTEMPTS.
  destruct (Z.leb_spec 2 n) as [Hmany | Hfew].
  - specialize (IH storage n Hn Hrest).
    destruct (pageLoads rest storage) as [redirects storage']. simpl in IH |- *.
    rewrite IH. replace (Z.to_nat (2 - n)) with 0%nat by lia.
    rewrite !Nat.min_0_r, !Nat.sub_0_r. reflexivity.
  - assert (Hrest' : Forall (fun visit => fst (isAccessAllowed visit
                                                 (incrementRedirectAttempts storage)) = false)
                       rest).
    { rewrite Forall_forall in Hrest |- *. intros v Hv.
      rewrite (isAccessAllowed_verdict v storage _ (incrementRedirectAttempts_hub storage)).
      apply (Hrest v Hv). }
    specialize (IH _ _ (getRedirectAttempts_incremented storage n Hn) Hrest').
    destruct (pageLoads rest (incrementRedirectAttempts storage)) as [redirects storage'].
    simpl in IH |- *. rewrite IH.
    replace (Z.to_nat (2 - n)) with (S (Z.to_nat (2 - (n + 1)))) by lia.
    reflexivity.
Qed.

Lemma pageLoads_NaN visits :
  forall storage : gmap string string,
    getRedirectAttempts storage = None ->
    Forall (fun visit => fst (isAccessAllowed visit storage) = false) visits ->
    fst (pageLoads visits storage) = repeat (Some HUB_URL) (length visits).
Proof.
  induction visits as [| visit rest IH]; intros storage Hn Hdenied; [ reflexivity | ].
  apply Forall_cons in Hdenied. destruct Hdenied as (Hvisit & Hrest).
  simpl pageLoads. unfold enforceHubAccess.
  rewrite (isAccessAllowed_denied visit storage Hvisit). simpl negb. cbv iota.
  rewrite Hn.
  assert (Hrest' : Forall (fun visit => fst (isAccessAllowed visit
                                               (incrementRedirectAttempts storage)) = false)
                     rest).
  { rewrite Forall_forall in Hrest |- *. intros v Hv.
    rewrite (isAccessAllowed_verdict v storage _ (incrementRedirectAttempts_hub storage)).
    apply (Hrest v Hv). }
  specialize (IH _ (getRedirectAttempts_NaN storage Hn) Hrest').
  destruct (pageLoads rest (incrementRedirectAttempts storage)) as [redirects storage'].
  simpl in IH |- *. rewrite IH. reflexivity.
Qed.

End AccessControlProperties.



(** X15.  A counter that does not read as a number disables the bound: when
    [redirectAttempts] holds a text [parseInt] cannot read, every denied load
    is redirected, however many there are (the counter then holds "NaN"). *)
Theorem unreadable_counter_never_stops :
  forall (visits : list Visit) (sessionStorage : gmap string string),
    AccessControl.getRedirectAttempts sessionStorage = None ->
    Forall (fun visit => fst (AccessControl.isAccessAllowed visit sessionStorage) = false)
      visits ->
    fst (AccessControl.pageLoads visits sessionStorage)
    = repeat (Some AccessControl.HUB_URL) (length visits) /\
    (visits <> [] ->
     snd (AccessControl.pageLoads visits sessionStorage) !! "redirectAttempts" = Some "NaN").
Proof.
  intros visits sessionStorage Hnan Hdenied.
  split; [ apply pageLoads_NaN; assumption | ].
  revert sessionStorage Hnan Hdenied.
  induction visits as [| visit rest IH]; intros storage Hnan Hdenied Hne; [ congruence | ].
  apply Forall_cons in Hdenied. destruct Hdenied as (Hvisit & Hrest).
  simpl AccessControl.pageLoads. unfold AccessControl.enforceHubAccess.
  rewrite (isAccessAllowed_denied visit storage Hvisit). simpl negb. cbv iota.
  rewrite Hnan.
  assert (Hrest' : Forall (fun visit =>
                             fst (AccessControl.isAccessAllowed visit
                                    (AccessControl.incrementRedirectAttempts storage)) = false)
                     rest).
  { rewrite Forall_forall in Hrest |- *. intros v Hv.
    rewrite (isAccessAllowed_verdict v storage _ (incrementRedirectAttempts_hub storage)).
    apply (Hrest v Hv). }
  specialize (IH _ (getRedirectAttempts_NaN storage Hnan) Hrest').
  destruct rest as [| next rest'].
  - simpl. unfold AccessControl.incrementRedirectAttempts. rewrite Hnan.
    apply lookup_insert_eq.
  - destruct (AccessControl.pageLoads (next :: rest')
                (AccessControl.incrementRedirectAttempts storage)) as [redirects storage'].
    simpl in IH |- *. apply IH. discriminate.
Qed.

Lemma unreadable_counter_never_stops_witness :
  let visit := visitFrom "https://iconforge.example" "" in
  fst (AccessControl.pageLoads [visit; visit; visit] {["redirectAttempts" := "two"]})
  = [Some "https://statelessplatform.com"; Some "https://statelessplatform.com";
     Some "https://statelessplatform.com"].
Proof.
  intros visit.
  destruct (unreadable_counter_never_stops [visit; visit; visit]
              {["redirectAttempts" := "two"]}) as (Hall & _).
  - reflexivity.
  - repeat constructor.
  - exact Hall.
Defined.

(** X16.  An allowed load clears the counter and does not redirect, whatever
    the counter held; so after it the session has its full allowance again:
    of the denied loads that follow, the first two are redirected. *)
Theorem allowed_load_resets_counter :
  forall (visit : Visit) (denied : list Visit) (sessionStorage : gmap string string),
    fst (AccessControl.isAccessAllowed visit sessionStorage) = true ->
    Forall (fun v => fst (AccessControl.isAccessAllowed v sessionStorage) = false) denied ->
    AccessControl.enforceHubAccess visit sessionStorage
    = (delete "redirectAttempts" sessionStorage, None) /\
    fst (AccessControl.pageLoads (visit :: denied) sessionStorage)
    = (None :: repeat (Some AccessControl.HUB_URL) (Nat.min (length denied) 2)
         ++ repeat None (length denied - 2))%list.
Proof.
  intros visit denied storage Hallowed Hdenied.
  pose proof (isAccessAllowed_allowed visit storage Hallowed) as Henforce.
  split; [ exact Henforce | ].
  simpl AccessControl.pageLoads. rewrite Henforce.
  assert (Hdenied' : Forall (fun v => fst (AccessControl.isAccessAllowed v
                                             (delete "redirectAttempts" storage)) = false)
                       denied).
  { rewrite Forall_forall in Hdenied |- *. intros v Hv.
    rewrite (isAccessAllowed_verdict v storage); [ apply (Hdenied v Hv) | ].
    apply lookup_delete_ne. discriminate. }
  pose proof (pageLoads_counting denied (delete "redirectAttempts" storage) 0) as Hcount.
  destruct (AccessControl.pageLoads denied (delete "redirectAttempts" storage))
    as [redirects storage'].
  simpl in Hcount |- *. rewrite Hcount; [ reflexivity | | exact Hdenied' ].
  unfold AccessControl.getRedirectAttempts. rewrite lookup_delete_eq. reflexivity.
Qed.

Lemma allowed_load_resets_counter_witness :
  let hub := visitFrom "https://iconforge.example" "https://statelessplatform.com/apps" in
  let direct := visitFrom "https://iconforge.example" "" in
  fst (AccessControl.pageLoads [hub; direct; direct; direct] {["redirectAttempts" := "2"]})
  = [None; Some "https://statelessplatform.com"; Some "https://statelessplatform.com"; None].
Proof.
  intros hub direct.
  destruct (allowed_load_resets_counter hub [direct; direct; direct]
              {["redirectAttempts" := "2"]}) as (_ & Hloads).
  - reflexivity.
  - repeat constructor.
  - exact Hloads.
Defined.

(** ** The two referrer tests *)

Lemma includes_prefix (s sub : string) : String.prefix sub s = true -> includes s sub = true.
Proof. intros H. destruct s; cbn [includes]; rewrite H; reflexivity. Qed.

Lemma prefix_app (s rest : string) : String.prefix s (s ++ rest) = true.
Proof.
  induction s as [| c s IH]; simpl; [ destruct rest; reflexivity | ].
  destruct (ascii_dec c c) as [_ | Hne]; [ exact IH | destruct (Hne eq_refl) ].
Qed.

Lemma includes_app (before sub rest : string) : includes (before ++ sub ++ rest) sub = true.
Proof.
  induction before as [| c before IH].
  - change ("" ++ sub ++ rest) with (sub ++ rest). apply includes_prefix, prefix_app.
  - change (String c before ++ sub ++ rest) with (String c (before ++ sub ++ rest)).
    cbn [includes]. rewrite IH. apply orb_true_r.
Qed.

Lemma existsb_origin (test : string -> bool) (origin : string) (origins : list string) :
  In origin origins -> test origin = true -> existsb test origins = true.
Proof. intros Hin Htest. apply existsb_exists. exists origin. auto. Qed.

(** X17.  The two copies of the access check differ on the referrer.  Every
    load the copy without counter allows (referrer starting with an allowed
    origin) the copy with counter allows too.  The copy with counter allows
    any referrer that contains an allowed origin anywhere, and the copy
    without counter allows any referrer that merely starts with one, whatever
    follows. *)
Theorem referrer_tests_compared :
  (forall (visit : Visit) (sessionStorage : gmap string string),
      AccessControlSimple.isAccessAllowed visit = true ->
      fst (AccessControl.isAccessAllowed visit sessionStorage) = true) /\
  (forall (origin before rest current : string) (sessionStorage : gmap string string),
      In origin AccessControl.ALLOWED_ORIGINS ->
      fst (AccessControl.isAccessAllowed (visitFrom current (before ++ origin ++ rest))
             sessionStorage) = true) /\
  (forall (origin rest current : string),
      In origin AccessControlSimple.ALLOWED_ORIGINS ->
      AccessControlSimple.isAccessAllowed (visitFrom current (origin ++ rest)) = true).
Proof.
  split; [ | split ].
  - intros visit storage. unfold AccessControlSimple.isAccessAllowed, AccessControl.isAccessAllowed.
    change AccessControlSimple.ALLOWED_ORIGINS with AccessControl.ALLOWED_ORIGINS.
    destruct (existsb (String.eqb (location_origin visit)) AccessControl.ALLOWED_ORIGINS);
      [ reflexivity | ].
    destruct (negb (String.eqb (referrer visit) "")); cbn [andb];
      [ | intros H; discriminate H ].
    destruct (existsb (fun origin => startsWith (referrer visit) origin)
                AccessControl.ALLOWED_ORIGINS) eqn:Hstarts; [ | intros H; discriminate H ].
    intros _. apply existsb_exists in Hstarts. destruct Hstarts as (origin & Hin & Hprefix).
    rewrite (existsb_origin (fun origin => includes (referrer visit) origin) origin _ Hin
               (includes_prefix _ _ Hprefix)).
    reflexivity.
  - intros origin before rest current storage Hin. unfold AccessControl.isAccessAllowed.
    simpl location_origin. simpl referrer.
    destruct (existsb (String.eqb current) AccessControl.ALLOWED_ORIGINS); [ reflexivity | ].
    rewrite (existsb_origin (fun o => includes (before ++ origin ++ rest) o) origin _ Hin
               (includes_app before origin rest)).
    assert (Hne : String.eqb (before ++ origin ++ rest) "" = false).
    { apply String.eqb_neq. intros E.
      destruct before; [ | simpl in E; discriminate E ].
      simpl in Hin. destruct Hin as [<- | [<- | [<- | [<- | []]]]];
        simpl in E; discriminate E. }
    rewrite Hne. reflexivity.
  - intros origin rest current Hin. unfold AccessControlSimple.isAccessAllowed.
    simpl location_origin. simpl referrer.
    destruct (existsb (String.eqb current) AccessControlSimple.ALLOWED_ORIGINS);
      [ reflexivity | ].
    rewrite (existsb_origin (fun o => startsWith (origin ++ rest) o) origin _ Hin
               (prefix_app origin rest)).
    assert (Hne : String.eqb (origin ++ rest) "" = false).
    { apply String.eqb_neq. intros E.
      simpl in Hin. destruct Hin as [<- | [<- | [<- | [<- | []]]]];
        simpl in E; discriminate E. }
    rewrite Hne. reflexivity.
Qed.

Lemma referrer_tests_compared_witness :
  fst (AccessControl.isAccessAllowed
         (visitFrom "https://iconforge.example"
            "https://elsewhere.example/?from=https://statelessplatform.com") ∅) = true /\
  AccessControlSimple.isAccessAllowed
    (visitFrom "https://iconforge.example" "https://statelessplatform.com.elsewhere.example/")
  = true.
Proof.
  destruct referrer_tests_compared as (_ & Hinside & Hstart).
  split.
  - apply (Hinside "https://statelessplatform.com" "https://elsewhere.example/?from=" ""
             "https://iconforge.example" ∅).
    simpl. auto.
  - apply (Hstart "https://statelessplatform.com" ".elsewhere.example/"
             "https://iconforge.example").
    simpl. auto.
Defined.

(** ** The service worker: which strategy a request gets *)

Lemma prefix_split (p s : string) : String.prefix p s = true -> exists r, s = p ++ r.
Proof.
  revert s. induction p as [| c p IH]; intros s H.
  - exists s. reflexivity.
  - destruct s as [| c' s]; simpl in H; [ discriminate | ].
    destruct (ascii_dec c c') as [<- | _]; [ | discriminate ].
    destruct (IH s H) as (r & ->). exists r. reflexivity.
Qed.

Lemma prefix_app_r (x p r : string) :
  String.prefix x p = true -> String.prefix x (p ++ r) = true.
Proof.
  revert p. induction x as [| c x IH]; intros p H.
  - destruct (p ++ r); reflexivity.
  - destruct p as [| c' p]; simpl in H |- *; [ discriminate | ].
    destruct (ascii_dec c c'); [ apply IH, H | discriminate ].
Qed.

Lemma includes_app_r (p r x : string) : includes p x = true -> includes (p ++ r) x = true.
Proof.
  induction p as [| c p IH]; intros H.
  - cbn [includes] in H. rewrite orb_false_r in H.
    apply includes_prefix. apply (prefix_app_r x "" r H).
  - cbn [includes] in H. apply orb_true_iff in H.
    change (String c p ++ r) with (String c (p ++ r)). cbn [includes].
    apply orb_true_iff. destruct H as [H | H].
    + left. apply (prefix_app_r x (String c p) r H).
    + right. apply IH, H.
Qed.

Lemma runtime_pattern_has_slash (address : string) :
  existsb (fun pattern => startsWith address pattern) ServiceWorker.RUNTIME_CACHE_PATTERNS = true ->
  includes address "/" = true.
Proof.
  intros H. apply existsb_exists in H. destruct H as (pattern & Hin & Hprefix).
  destruct (prefix_split _ _ Hprefix) as (r & ->).
  apply includes_app_r.
  simpl in Hin. destruct Hin as [<- | [<- | [<- | []]]]; reflexivity.
Qed.

(** X18.  The stale-while-revalidate strategy is chosen only for a GET
    request to the worker's own origin: a request to another origin whose URL
    starts with one of the runtime patterns contains "/", which is one of the
    static assets, so it is served cache-first.  Indeed every GET request to
    another origin whose URL contains "/" is served cache-first. *)
Theorem runtime_strategy_only_same_origin :
  forall (origin : string) (request : ServiceWorker.Request),
    (ServiceWorker.chooseStrategy origin request = Some ServiceWorker.StaleWhileRevalidate ->
     ServiceWorker.url_origin request = origin /\
     ServiceWorker.method request = "GET" /\
     ServiceWorker.isRuntimeCacheable request = true) /\
    (ServiceWorker.url_origin request <> origin ->
     ServiceWorker.method request = "GET" ->
     ServiceWorker.url_protocol request <> "chrome-extension:" ->
     includes (ServiceWorker.url request) "/" = true ->
     ServiceWorker.chooseStrategy origin request = Some ServiceWorker.CacheFirst).
Proof.
  intros origin request.
  assert (Hcross : ServiceWorker.url_origin request <> origin ->
                   includes (ServiceWorker.url request) "/" = true ->
                   ServiceWorker.isStaticAsset origin request = true).
  { intros Hne Hslash. unfold ServiceWorker.isStaticAsset.
    apply String.eqb_neq in Hne. rewrite Hne.
    cbn [existsb ServiceWorker.STATIC_ASSETS]. rewrite Hslash. reflexivity. }
  split.
  - unfold ServiceWorker.chooseStrategy.
    destruct (String.eqb_spec (ServiceWorker.method request) "GET") as [Hget | _];
      cbn [negb]; [ | discriminate ].
    destruct (String.eqb (ServiceWorker.url_protocol request) "chrome-extension:");
      [ discriminate | ].
    destruct (ServiceWorker.isStaticAsset origin request) eqn:Hstatic;
      [ discriminate | ].
    destruct (ServiceWorker.isRuntimeCacheable request) eqn:Hruntime;
      [ | discriminate ].
    intros _. split; [ | split; [ exact Hget | reflexivity ] ].
    destruct (String.eqb_spec (ServiceWorker.url_origin request) origin) as [E | Hne];
      [ exact E | ].
    discriminate (Hcross Hne (runtime_pattern_has_slash _ Hruntime)).
  - intros Hne Hget Hproto Hslash. unfold ServiceWorker.chooseStrategy.
    rewrite Hget. change (negb ("GET" =? "GET")%string) with false. cbv iota.
    apply String.eqb_neq in Hproto. rewrite Hproto.
    rewrite (Hcross Hne Hslash). reflexivity.
Qed.

Lemma runtime_strategy_only_same_origin_witness :
  ServiceWorker.chooseStrategy "https://iconforge.example"
    (getRequest "https://fonts.googleapis.com/css2?family=Inter"
       "https://fonts.googleapis.com" "/css2")
  = Some ServiceWorker.CacheFirst.
Proof.
  destruct (runtime_strategy_only_same_origin "https://iconforge.example"
              (getRequest "https://fonts.googleapis.com/css2?family=Inter"
                 "https://fonts.googleapis.com" "/css2")) as (_ & Hcross).
  apply Hcross.
  - discriminate.
  - reflexivity.
  - discriminate.
  - reflexivity.
Defined.

(** ** The service worker: the cache storage *)

Lemma fold_cachesDelete (names : list string)
    (caches : list (string * gmap string ServiceWorker.Response)) :
  fold_left (fun caches cacheName => ServiceWorker.cachesDelete cacheName caches) names caches
  = List.filter (fun entry => negb (existsb (String.eqb (fst entry)) names)) caches.
Proof.
  revert caches. induction names as [| name names IH]; intros caches.
  - cbn [fold_left existsb negb].
    induction caches as [| entry caches IHc]; [ reflexivity | ].
    cbn [List.filter]. f_equal. exact IHc.
  - cbn [fold_left]. rewrite IH. unfold ServiceWorker.cachesDelete.
    induction caches as [| entry caches IHc]; [ reflexivity | ].
    cbn [List.filter existsb].
    destruct (String.eqb (fst entry) name); cbn [negb orb List.filter]; [ exact IHc | ].
    destruct (existsb (String.eqb (fst entry)) names); cbn [negb]; [ exact IHc | ].
    f_equal. exact IHc.
Qed.

Lemma existsb_filter_member (p : string -> bool) (name : string) (names : list string) :
  In name names ->
  existsb (String.eqb name) (List.filter p names) = p name.
Proof.
  intros Hin. destruct (p name) eqn:Hp.
  - apply existsb_exists. exists name. split.
    + apply filter_In. split; assumption.
    + apply String.eqb_refl.
  - destruct (existsb (String.eqb name) (List.filter p names)) eqn:E; [ | reflexivity ].
    apply existsb_exists in E. destruct E as (other & Hother & Heq).
    apply String.eqb_eq in Heq. subst other.
    apply filter_In in Hother. destruct Hother as (_ & Hother). congruence.
Qed.

Lemma filter_none {A : Type} (f : A -> bool) (l : list A) :
  (forall a, In a l -> f a = false) -> List.filter f l = [].
Proof.
  induction l as [| a l IH]; intros H; [ reflexivity | ].
  cbn [List.filter]. rewrite (H a (or_introl eq_refl)).
  apply IH. intros b Hb. apply H. right. exact Hb.
Qed.

(** X19.  Activation keeps exactly the caches called by one of the three
    current names, with their content and in their order, and deletes every
    other one; [clearAllCaches] leaves no cache at all. *)
Theorem onActivate_keeps_current_caches :
  forall caches : list (string * gmap string ServiceWorker.Response),
    ServiceWorker.onActivate caches
    = List.filter (fun entry =>
                     String.eqb (fst entry) ServiceWorker.STATIC_CACHE
                     || String.eqb (fst entry) ServiceWorker.DYNAMIC_CACHE
                     || String.eqb (fst entry) ServiceWorker.CACHE_NAME) caches
    /\ ServiceWorker.clearAllCaches caches = [].
Proof.
  intros caches. split.
  - unfold ServiceWorker.onActivate. rewrite fold_cachesDelete.
    apply filter_ext_in. intros entry Hin.
    rewrite existsb_filter_member by (apply in_map, Hin).
    destruct (String.eqb (fst entry) ServiceWorker.STATIC_CACHE),
             (String.eqb (fst entry) ServiceWorker.DYNAMIC_CACHE),
             (String.eqb (fst entry) ServiceWorker.CACHE_NAME); reflexivity.
  - unfold ServiceWorker.clearAllCaches. rewrite fold_cachesDelete.
    apply filter_none. intros entry Hin.
    apply negb_false_iff. apply existsb_exists. exists (fst entry). split.
    + apply in_map, Hin.
    + apply String.eqb_refl.
Qed.

Lemma cachesMatch_cachePut_fresh (name address : string) (response : ServiceWorker.Response)
    (caches : list (string * gmap string ServiceWorker.Response)) :
  ServiceWorker.cachesMatch caches address = None ->
  ServiceWorker.cachesMatch (ServiceWorker.cachePut name address response caches) address
  = Some response.
Proof.
  induction caches as [| [n cache] rest IH]; intros H.
  - cbn [ServiceWorker.cachePut ServiceWorker.cachesMatch].
    rewrite lookup_singleton_eq. reflexivity.
  - cbn [ServiceWorker.cachesMatch] in H.
    destruct (cache !! address) eqn:E; [ discriminate H | ].
    cbn [ServiceWorker.cachePut].
    destruct (String.eqb n name); cbn [ServiceWorker.cachesMatch].
    + rewrite lookup_insert_eq. reflexivity.
    + rewrite E. apply IH, H.
Qed.

Lemma cacheNamed_cachesOpen (name : string)
    (caches : list (string * gmap string ServiceWorker.Response)) :
  ServiceWorker.cacheNamed name (ServiceWorker.cachesOpen name caches)
  = ServiceWorker.cacheNamed name caches.
Proof.
  induction caches as [| [n cache] rest IH].
  - cbn [ServiceWorker.cachesOpen ServiceWorker.cacheNamed].
    rewrite String.eqb_refl. reflexivity.
  - cbn [ServiceWorker.cachesOpen ServiceWorker.cacheNamed].
    destruct (String.eqb n name) eqn:E; cbn [ServiceWorker.cacheNamed]; rewrite E;
      [ reflexivity | exact IH ].
Qed.

Lemma cacheNamed_cachePut (name address : string) (response : ServiceWorker.Response)
    (caches : list (string * gmap string ServiceWorker.Response)) :
  ServiceWorker.cacheNamed name (ServiceWorker.cachePut name address response caches)
  = <[address := response]> (ServiceWorker.cacheNamed name caches).
Proof.
  induction caches as [| [n cache] rest IH].
  - cbn [ServiceWorker.cachePut ServiceWorker.cacheNamed].
    rewrite String.eqb_refl. reflexivity.
  - cbn [ServiceWorker.cachePut ServiceWorker.cacheNamed].
    destruct (String.eqb n name) eqn:E; cbn [ServiceWorker.cacheNamed]; rewrite E;
      [ reflexivity | exact IH ].
Qed.

Lemma cachesOpen_cachePut (name address : string) (response : ServiceWorker.Response)
    (caches : list (string * gmap string ServiceWorker.Response)) :
  ServiceWorker.cachesOpen name (ServiceWorker.cachePut name address response caches)
  = ServiceWorker.cachePut name address response caches.
Proof.
  induction caches as [| [n cache] rest IH].
  - cbn [ServiceWorker.cachePut ServiceWorker.cachesOpen].
    rewrite String.eqb_refl. reflexivity.
  - cbn [ServiceWorker.cachePut].
    destruct (String.eqb n name) eqn:E; cbn [ServiceWorker.cachesOpen]; rewrite E;
      [ reflexivity | f_equal; exact IH ].
Qed.

Lemma handleRuntimeCache_answer (network : string -> ServiceWorker.FetchResult)
    (caches : list (string * gmap string ServiceWorker.Response))
    (request : ServiceWorker.Request) :
  snd (ServiceWorker.handleRuntimeCache network caches request)
  = match ServiceWorker.cacheNamed ServiceWorker.DYNAMIC_CACHE caches
          !! ServiceWorker.url request with
    | Some response => ServiceWorker.Responds response
    | None =>
        match network (ServiceWorker.url request) with
        | ServiceWorker.Resolves response => ServiceWorker.Responds response
        | ServiceWorker.Rejects => ServiceWorker.RespondsUndefined
        end
    end.
Proof.
  unfold ServiceWorker.handleRuntimeCache. rewrite cacheNamed_cachesOpen.
  destruct (network (ServiceWorker.url request)) as [response |]; cbn [snd].
  - reflexivity.
  - destruct (ServiceWorker.cacheNamed ServiceWorker.DYNAMIC_CACHE caches
                !! ServiceWorker.url request); reflexivity.
Qed.

Lemma handleRuntimeCache_caches (network : string -> ServiceWorker.FetchResult)
    (caches : list (string * gmap string ServiceWorker.Response))
    (request : ServiceWorker.Request) :
  fst (ServiceWorker.handleRuntimeCache network caches request)
  = match network (ServiceWorker.url request) with
    | ServiceWorker.Resolves response =>
        if ServiceWorker.ok response
        then ServiceWorker.cachePut ServiceWorker.DYNAMIC_CACHE (ServiceWorker.url request)
               response (ServiceWorker.cachesOpen ServiceWorker.DYNAMIC_CACHE caches)
        else ServiceWorker.cachesOpen ServiceWorker.DYNAMIC_CACHE caches
    | ServiceWorker.Rejects => ServiceWorker.cachesOpen ServiceWorker.DYNAMIC_CACHE caches
    end.
Proof.
  unfold ServiceWorker.handleRuntimeCache.
  destruct (network (ServiceWorker.url request)) as [response |]; reflexivity.
Qed.

(** X20.  Cache first never looks again: once [handleStaticAsset] has met a
    successful network response for a request, it has answered with some
    response, the fetched one when no cache held the URL, and every later call
    gives that same answer and leaves the caches as they are, whatever the
    network would send then. *)
Theorem handleStaticAsset_answer_is_kept :
  forall (network : string -> ServiceWorker.FetchResult)
         (caches : list (string * gmap string ServiceWorker.Response))
         (request : ServiceWorker.Request) (response : ServiceWorker.Response),
    network (ServiceWorker.url request) = ServiceWorker.Resolves response ->
    ServiceWorker.ok response = true ->
    exists served,
      snd (ServiceWorker.handleStaticAsset network caches request)
      = ServiceWorker.Responds served /\
      (ServiceWorker.cachesMatch caches (ServiceWorker.url request) = None ->
       served = response) /\
      forall later : string -> ServiceWorker.FetchResult,
        ServiceWorker.handleStaticAsset later
          (fst (ServiceWorker.handleStaticAsset network caches request)) request
        = (fst (ServiceWorker.handleStaticAsset network caches request),
           ServiceWorker.Responds served).
Proof.
  intros network caches request response Hnet Hok.
  unfold ServiceWorker.handleStaticAsset at 1 3 4.
  destruct (ServiceWorker.cachesMatch caches (ServiceWorker.url request))
    as [cached |] eqn:Hmatch.
  - exists cached. cbn [fst snd]. split; [ reflexivity | ].
    split; [ discriminate | ].
    intros later. unfold ServiceWorker.handleStaticAsset. rewrite Hmatch. reflexivity.
  - exists response. rewrite Hnet, Hok. cbn [fst snd]. split; [ reflexivity | ].
    split; [ reflexivity | ].
    intros later. unfold ServiceWorker.handleStaticAsset.
    rewrite (cachesMatch_cachePut_fresh _ _ _ _ Hmatch). reflexivity.
Qed.

Lemma handleStaticAsset_answer_is_kept_witness :
  exists served,
    snd (ServiceWorker.handleStaticAsset
           (fun _ => ServiceWorker.Resolves (okResponse "body { margin: 0 }"))
           [] (getRequest "https://iconforge.example/styles.css"
                 "https://iconforge.example" "/styles.css"))
    = ServiceWorker.Responds served /\
    (ServiceWorker.cachesMatch [] "https://iconforge.example/styles.css" = None ->
     served = okResponse "body { margin: 0 }") /\
    forall later : string -> ServiceWorker.FetchResult,
      ServiceWorker.handleStaticAsset later
        (fst (ServiceWorker.handleStaticAsset
                (fun _ => ServiceWorker.Resolves (okResponse "body { margin: 0 }"))
                [] (getRequest "https://iconforge.example/styles.css"
                      "https://iconforge.example" "/styles.css")))
        (getRequest "https://iconforge.example/styles.css"
           "https://iconforge.example" "/styles.css")
      = (fst (ServiceWorker.handleStaticAsset
                (fun _ => ServiceWorker.Resolves (okResponse "body { margin: 0 }"))
                [] (getRequest "https://iconforge.example/styles.css"
                      "https://iconforge.example" "/styles.css")),
         ServiceWorker.Responds served).
Proof.
  apply (handleStaticAsset_answer_is_kept
           (fun _ => ServiceWorker.Resolves (okResponse "body { margin: 0 }"))
           [] (getRequest "https://iconforge.example/styles.css"
                 "https://iconforge.example" "/styles.css")
           (okResponse "body { margin: 0 }")).
  - reflexivity.
  - reflexivity.
Defined.

(** X21.  Network first, then offline: after [handleNetworkFirst] has fetched
    a successful response for an http(s) URL, a call made while the network
    fails answers with that response when no cache held the URL before; but
    when the first cache of the storage, another one than the dynamic cache,
    holds the URL, the offline answer is that older entry, because
    [caches.match] takes the first entry found. *)
Theorem handleNetworkFirst_offline_replay :
  forall (network : string -> ServiceWorker.FetchResult)
         (caches : list (string * gmap string ServiceWorker.Response))
         (request : ServiceWorker.Request) (response : ServiceWorker.Response),
    network (ServiceWorker.url request) = ServiceWorker.Resolves response ->
    ServiceWorker.ok response = true ->
    startsWith (ServiceWorker.url request) "http" = true ->
    snd (ServiceWorker.handleNetworkFirst network caches request)
    = ServiceWorker.Responds response /\
    (ServiceWorker.cachesMatch caches (ServiceWorker.url request) = None ->
     snd (ServiceWorker.handleNetworkFirst (fun _ => ServiceWorker.Rejects)
            (fst (ServiceWorker.handleNetworkFirst network caches request)) request)
     = ServiceWorker.Responds response) /\
    (forall name cache rest old,
       caches = (name, cache) :: rest ->
       name <> ServiceWorker.DYNAMIC_CACHE ->
       cache !! ServiceWorker.url request = Some old ->
       snd (ServiceWorker.handleNetworkFirst (fun _ => ServiceWorker.Rejects)
              (fst (ServiceWorker.handleNetworkFirst network caches request)) request)
       = ServiceWorker.Responds old).
Proof.
  intros network caches request response Hnet Hok Hhttp.
  assert (Hfirst : ServiceWorker.handleNetworkFirst network caches request
                   = (ServiceWorker.cachePut ServiceWorker.DYNAMIC_CACHE
                        (ServiceWorker.url request) response caches,
                      ServiceWorker.Responds response)).
  { unfold ServiceWorker.handleNetworkFirst. rewrite Hnet, Hok, Hhttp. reflexivity. }
  rewrite Hfirst. cbn [fst snd].
  split; [ reflexivity | ]. split.
  - intros Hnone. unfold ServiceWorker.handleNetworkFirst.
    rewrite (cachesMatch_cachePut_fresh _ _ _ _ Hnone). reflexivity.
  - intros name cache rest old -> Hname Hold.
    unfold ServiceWorker.handleNetworkFirst.
    cbn [ServiceWorker.cachePut].
    apply String.eqb_neq in Hname. rewrite Hname.
    cbn [ServiceWorker.cachesMatch]. rewrite Hold. reflexivity.
Qed.

Lemma handleNetworkFirst_offline_replay_witness :
  snd (ServiceWorker.handleNetworkFirst (fun _ => ServiceWorker.Rejects)
         (fst (ServiceWorker.handleNetworkFirst
                 (fun _ => ServiceWorker.Resolves (okResponse "new"))
                 [(ServiceWorker.STATIC_CACHE,
                   {["https://iconforge.example/" := okResponse "old"]})]
                 (getRequest "https://iconforge.example/" "https://iconforge.example" "/")))
         (getRequest "https://iconforge.example/" "https://iconforge.example" "/"))
  = ServiceWorker.Responds (okResponse "old").
Proof.
  destruct (handleNetworkFirst_offline_replay
              (fun _ => ServiceWorker.Resolves (okResponse "new"))
              [(ServiceWorker.STATIC_CACHE,
                {["https://iconforge.example/" := okResponse "old"]})]
              (getRequest "https://iconforge.example/" "https://iconforge.example" "/")
              (okResponse "new") eq_refl eq_refl eq_refl) as (_ & _ & Hold).
  apply (Hold ServiceWorker.STATIC_CACHE
              {["https://iconforge.example/" := okResponse "old"]} [] (okResponse "old")).
  - reflexivity.
  - discriminate.
  - apply lookup_singleton_eq.
Defined.

(** X22.  Stale while revalidate is one answer behind: when the dynamic cache
    holds an entry for the URL and the network sends a successful response,
    [handleRuntimeCache] answers with the cached entry, and the next call
    answers with the response fetched during the first, whatever the network
    does then.  Only the dynamic cache is consulted: with no entry there and a
    failing network the handler answers with [undefined], whatever the other
    caches hold. *)
Theorem handleRuntimeCache_one_behind :
  forall (network later : string -> ServiceWorker.FetchResult)
         (caches : list (string * gmap string ServiceWorker.Response))
         (request : ServiceWorker.Request),
    (forall old fresh,
       ServiceWorker.cacheNamed ServiceWorker.DYNAMIC_CACHE caches
         !! ServiceWorker.url request = Some old ->
       network (ServiceWorker.url request) = ServiceWorker.Resolves fresh ->
       ServiceWorker.ok fresh = true ->
       snd (ServiceWorker.handleRuntimeCache network caches request)
       = ServiceWorker.Responds old /\
       snd (ServiceWorker.handleRuntimeCache later
              (fst (ServiceWorker.handleRuntimeCache network caches request)) request)
       = ServiceWorker.Responds fresh) /\
    (ServiceWorker.cacheNamed ServiceWorker.DYNAMIC_CACHE caches
       !! ServiceWorker.url request = None ->
     network (ServiceWorker.url request) = ServiceWorker.Rejects ->
     ServiceWorker.handleRuntimeCache network caches request
     = (ServiceWorker.cachesOpen ServiceWorker.DYNAMIC_CACHE caches,
        ServiceWorker.RespondsUndefined)).
Proof.
  intros network later caches request. split.
  - intros old fresh Hold Hnet Hok. split.
    + rewrite handleRuntimeCache_answer, Hold. reflexivity.
    + rewrite handleRuntimeCache_answer, handleRuntimeCache_caches, Hnet, Hok.
      rewrite cacheNamed_cachePut, lookup_insert_eq. reflexivity.
  - intros Hnone Hnet.
    rewrite (surjective_pairing (ServiceWorker.handleRuntimeCache network caches request)).
    rewrite handleRuntimeCache_answer, handleRuntimeCache_caches, Hnone, Hnet.
    reflexivity.
Qed.

Lemma handleRuntimeCache_one_behind_witness :
  snd (ServiceWorker.handleRuntimeCache
         (fun _ => ServiceWorker.Resolves (okResponse "v2"))
         [(ServiceWorker.DYNAMIC_CACHE,
           {["https://unpkg.com/jszip" := okResponse "v1"]})]
         (getRequest "https://unpkg.com/jszip" "https://unpkg.com" "/jszip"))
  = ServiceWorker.Responds (okResponse "v1") /\
  snd (ServiceWorker.handleRuntimeCache (fun _ => ServiceWorker.Rejects)
         (fst (ServiceWorker.handleRuntimeCache
                 (fun _ => ServiceWorker.Resolves (okResponse "v2"))
                 [(ServiceWorker.DYNAMIC_CACHE,
                   {["https://unpkg.com/jszip" := okResponse "v1"]})]
                 (getRequest "https://unpkg.com/jszip" "https://unpkg.com" "/jszip")))
         (getRequest "https://unpkg.com/jszip" "https://unpkg.com" "/jszip"))
  = ServiceWorker.Responds (okResponse "v2").
Proof.
  destruct (handleRuntimeCache_one_behind
              (fun _ => ServiceWorker.Resolves (okResponse "v2"))
              (fun _ => ServiceWorker.Rejects)
              [(ServiceWorker.DYNAMIC_CACHE,
                {["https://unpkg.com/jszip" := okResponse "v1"]})]
              (getRequest "https://unpkg.com/jszip" "https://unpkg.com" "/jszip"))
    as (Hbehind & _).
  apply (Hbehind (okResponse "v1") (okResponse "v2")).
  - apply lookup_singleton_eq.
  - reflexivity.
  - reflexivity.
Defined.
